(** * Error diagnostics of the runtime: src/messages.cc

    A shallow embedding of the message catalog ([MessageTemplate]), the
    call-site inspector ([CallSite]), the error object builder
    ([ConstructError]) and the diagnostic dispatcher ([MessageHandler]),
    followed by the properties established about them.

    Conventions of the embedding:
    - a [Handle<T>] is an [option]: the null handle is [None], and
      dereferencing it aborts;
    - a [MaybeHandle<T>] returned by a collaborator is an [option] too:
      [None] is the empty handle left behind by a thrown exception;
    - the functions of messages.cc return a [Completion]: a value, a thrown
      exception, or an abort (failed CHECK/DCHECK, null handle dereferenced);
    - heap objects carry an identity ([obj_id]); pointer comparisons of the
      source compare identities. *)

From Stdlib Require Import ZArith Ascii String DecimalString.
From stdpp Require Import base option list strings gmap.

(** ** Completions *)

Inductive Exception : Type :=
| IllegalOperation      (* isolate->ThrowIllegalOperation() *)
| PendingException.     (* an exception left pending by a collaborator *)

Inductive Completion (A : Type) : Type :=
| Normal (a : A)
| Throw (e : Exception)
| Abort.
Arguments Normal {A} a.
Arguments Throw {A} e.
Arguments Abort {A}.

#[export] Instance Completion_ret : MRet Completion := fun A a => Normal a.
#[export] Instance Completion_bind : MBind Completion := fun A B f c =>
  match c with
  | Normal a => f a
  | Throw e => Throw e
  | Abort => Abort
  end.

Definition Handle (A : Type) : Type := option A.
Definition MaybeHandle (A : Type) : Type := option A.

(** [*handle] and [handle->]: the null handle cannot be dereferenced. *)
Definition deref {A : Type} (h : Handle A) : Completion A :=
  match h with
  | Some a => Normal a
  | None => Abort
  end.

(** ASSIGN_RETURN_ON_EXCEPTION / RETURN_ON_EXCEPTION: an empty [MaybeHandle]
    makes the caller return the empty handle as well. *)
Definition on_exception {A : Type} (m : MaybeHandle A) : Completion A :=
  match m with
  | Some a => Normal a
  | None => Throw PendingException
  end.

(** CHECK(condition): checked in every build. *)
Definition CHECK (condition : bool) : Completion unit :=
  if condition then Normal tt else Abort.

(** ** Heap values *)

Inductive CompilationType : Type := COMPILATION_TYPE_HOST | COMPILATION_TYPE_EVAL.
Inductive ScriptType : Type := TYPE_NATIVE | TYPE_EXTENSION | TYPE_NORMAL.
Inductive InstanceType : Type :=
| JS_OBJECT_TYPE | JS_GLOBAL_PROXY_TYPE | JS_ERROR_TYPE | JS_VALUE_TYPE.
Inductive PropertyKind : Type := kData | kAccessor.

Inductive Object : Type :=
| Undefined
| Null
| Smi (value : Z)
| Str (chars : string)
| Symbol (id : N)
| AccessorPair (getter setter : Object)
| AccessorInfo (id : N)
| OScript (s : Script)
| OJSFunction (f : JSFunction)
| OJSObject (o : JSObject)
| JSProxy (id : N)
with Script : Type :=
| mkScript (name source_url : Object) (compilation_type : CompilationType)
    (type : ScriptType) (line_ends : list Z)
with SharedFunctionInfo : Type :=
| mkSharedFunctionInfo (name script : Object)
with JSFunction : Type :=
| mkJSFunction (object : JSObject) (shared : SharedFunctionInfo)
with JSObject : Type :=
| mkJSObject (obj_id : N) (instance_type : InstanceType)
    (access_check_needed : bool) (properties : list Property)
    (prototype : Object)
with Property : Type :=
| mkProperty (key : Object) (attributes : Z) (kind : PropertyKind)
    (value : Object).

Module Script.
Definition name (s : Script) : Object :=
  let '(mkScript n _ _ _ _) := s in n.
Definition source_url (s : Script) : Object :=
  let '(mkScript _ u _ _ _) := s in u.
Definition compilation_type (s : Script) : CompilationType :=
  let '(mkScript _ _ c _ _) := s in c.
Definition type (s : Script) : ScriptType :=
  let '(mkScript _ _ _ t _) := s in t.
Definition line_ends (s : Script) : list Z :=
  let '(mkScript _ _ _ _ l) := s in l.
End Script.

Module SharedFunctionInfo.
Definition name (s : SharedFunctionInfo) : Object :=
  let '(mkSharedFunctionInfo n _) := s in n.
Definition script (s : SharedFunctionInfo) : Object :=
  let '(mkSharedFunctionInfo _ s) := s in s.
End SharedFunctionInfo.

Definition obj_id (o : JSObject) : N :=
  let '(mkJSObject i _ _ _ _) := o in i.
Definition instance_type (o : JSObject) : InstanceType :=
  let '(mkJSObject _ t _ _ _) := o in t.
Definition IsAccessCheckNeeded (o : JSObject) : bool :=
  let '(mkJSObject _ _ a _ _) := o in a.
Definition properties (o : JSObject) : list Property :=
  let '(mkJSObject _ _ _ ps _) := o in ps.
Definition prototype (o : JSObject) : Object :=
  let '(mkJSObject _ _ _ _ p) := o in p.

Definition fun_object (f : JSFunction) : JSObject :=
  let '(mkJSFunction o _) := f in o.
Definition shared (f : JSFunction) : SharedFunctionInfo :=
  let '(mkJSFunction _ s) := f in s.

Definition key (p : Property) : Object :=
  let '(mkProperty k _ _ _) := p in k.
Definition attributes (p : Property) : Z :=
  let '(mkProperty _ a _ _) := p in a.
Definition kind (p : Property) : PropertyKind :=
  let '(mkProperty _ _ k _) := p in k.
Definition value (p : Property) : Object :=
  let '(mkProperty _ _ _ v) := p in v.

(** Type tests of [Object]. A function is a [JSObject] as well. *)
Definition IsUndefined (v : Object) : bool :=
  match v with Undefined => true | _ => false end.
Definition IsNull (v : Object) : bool :=
  match v with Null => true | _ => false end.
Definition IsSmi (v : Object) : bool :=
  match v with Smi _ => true | _ => false end.
Definition IsString (v : Object) : bool :=
  match v with Str _ => true | _ => false end.
Definition IsName (v : Object) : bool :=
  match v with Str _ | Symbol _ => true | _ => false end.
Definition IsScript (v : Object) : bool :=
  match v with OScript _ => true | _ => false end.
Definition IsJSFunction (v : Object) : bool :=
  match v with OJSFunction _ => true | _ => false end.
Definition IsJSObject (v : Object) : bool :=
  match v with OJSObject _ | OJSFunction _ => true | _ => false end.
Definition IsJSReceiver (v : Object) : bool :=
  match v with OJSObject _ | OJSFunction _ | JSProxy _ => true | _ => false end.
Definition IsJSGlobalProxy (v : Object) : bool :=
  match v with
  | OJSObject o =>
      match instance_type o with JS_GLOBAL_PROXY_TYPE => true | _ => false end
  | _ => false
  end.
Definition IsJSError (v : Object) : bool :=
  match v with
  | OJSObject o =>
      match instance_type o with JS_ERROR_TYPE => true | _ => false end
  | _ => false
  end.
Definition IsAccessorPair (v : Object) : bool :=
  match v with AccessorPair _ _ => true | _ => false end.

(** [Handle<JSObject>::cast] of a value that [IsJSObject]. *)
Definition JSObject_cast (v : Object) : Completion JSObject :=
  match v with
  | OJSObject o => Normal o
  | OJSFunction f => Normal (fun_object f)
  | _ => Abort
  end.

(** [value.is_identical_to(fun)] and [value == *fun]: the same heap object. *)
Definition is_identical_to (v : Object) (f : JSFunction) : bool :=
  match v with
  | OJSFunction g => N.eqb (obj_id (fun_object g)) (obj_id (fun_object f))
  | _ => false
  end.

(** Property attributes (PropertyAttributes of the API): bit flags. *)
Definition NONE : Z := 0.
Definition DONT_ENUM : Z := 2.

Definition IsDontEnum (attrs : Z) : bool := negb (Z.land attrs DONT_ENUM =? 0)%Z.

(** Equality of property keys: names are unique strings or symbols. *)
Definition Name_Equals (a b : Object) : bool :=
  match a, b with
  | Str s, Str t => String.eqb s t
  | Symbol i, Symbol j => N.eqb i j
  | Smi i, Smi j => Z.eqb i j
  | _, _ => false
  end.


(** Modelled from the spec: [LookupIterator] (src/lookup.h is not among the
    sources).  The lookup of a named property starts at [holder] and, under
    [PROTOTYPE_CHAIN_SKIP_INTERCEPTOR], follows the prototype chain; it
    stops in state [ACCESS_CHECK] at a link that requires an access check
    and in state [JSPROXY] at a proxy.  Interceptors are skipped by both
    configurations. *)
Inductive LookupState : Type :=
| NOT_FOUND
| ACCESS_CHECK
| JSPROXY
| DATA (data_value : Object)
| ACCESSOR (accessors : Object).

Inductive Configuration : Type :=
| OWN_SKIP_INTERCEPTOR
| PROTOTYPE_CHAIN_SKIP_INTERCEPTOR.

Fixpoint LookupIterator_state (config : Configuration) (holder : JSObject)
    (name : Object) {struct holder} : LookupState :=
  match holder with
  | mkJSObject _ _ check props proto =>
      if check then ACCESS_CHECK
      else
        match List.find (fun p => Name_Equals (key p) name) props with
        | Some p =>
            match kind p with
            | kData => DATA (value p)
            | kAccessor => ACCESSOR (value p)
            end
        | None =>
            match config with
            | OWN_SKIP_INTERCEPTOR => NOT_FOUND
            | PROTOTYPE_CHAIN_SKIP_INTERCEPTOR =>
                match proto with
                | OJSObject next => LookupIterator_state config next name
                | OJSFunction (mkJSFunction next _) =>
                    LookupIterator_state config next name
                | JSProxy _ => JSPROXY
                | _ => NOT_FOUND
                end
            end
        end
  end.

(** Modelled from the spec: [JSObject::GetDataProperty] (src/objects.cc is
    not among the sources): the value of a data property found on the
    prototype chain, undefined in every other case. *)
Definition GetDataProperty (object : JSObject) (name : Object) : Object :=
  match LookupIterator_state PROTOTYPE_CHAIN_SKIP_INTERCEPTOR object name with
  | DATA v => v
  | _ => Undefined
  end.

(** Modelled from the spec: [KeyAccumulator::GetOwnEnumPropertyKeys]
    (src/keys.cc is not among the sources): the keys of the own enumerable
    properties, in property order. *)
Definition GetOwnEnumPropertyKeys (o : JSObject) : list Object :=
  List.map key
    (List.filter (fun p => negb (IsDontEnum (attributes p))) (properties o)).

(** Modelled from the spec: [JSObject::SetOwnPropertyIgnoreAttributes]
    (src/objects.cc is not among the sources): defines the own data property
    [name] with exactly the given attributes, replacing a property of that
    name in place and appending a new one otherwise. *)
Fixpoint DefineOwnProperty (p : Property) (props : list Property)
    : list Property :=
  match props with
  | [] => [p]
  | q :: rest =>
      if Name_Equals (key q) (key p) then p :: rest
      else q :: DefineOwnProperty p rest
  end.

Definition SetOwnPropertyIgnoreAttributes (object : JSObject)
    (name value : Object) (attrs : Z) : MaybeHandle JSObject :=
  let '(mkJSObject i t c props proto) := object in
  Some (mkJSObject i t c
          (DefineOwnProperty (mkProperty name attrs kData value) props) proto).

(** Modelled from the spec: [Script::GetLineNumber] and
    [Script::GetColumnNumber] (src/objects.cc is not among the sources):
    the 0-based line and column of an offset, read off the table of the
    offsets at which the lines of the script end. *)
Definition Script_GetLineNumber (script : Script) (code_pos : Z) : Z :=
  Z.of_nat
    (length (List.filter (fun e => (e <? code_pos)%Z) (Script.line_ends script))).

Definition Script_GetColumnNumber (script : Script) (code_pos : Z) : Z :=
  match List.filter (fun e => (e <? code_pos)%Z) (Script.line_ends script) with
  | [] => code_pos
  | e :: es => (code_pos - (List.last es e + 1))%Z
  end.

(** Roots of the heap used below. *)
Definition call_site_function_symbol : Object := Symbol 1.
Definition call_site_receiver_symbol : Object := Symbol 2.
Definition call_site_position_symbol : Object := Symbol 3.
Definition call_site_wasm_obj_symbol : Object := Symbol 4.
Definition call_site_wasm_func_index_symbol : Object := Symbol 5.
Definition call_site_constructor_symbol : Object := Symbol 6.
Definition constructor_string : Object := Str "constructor".
Definition message_string : Object := Str "message".
Definition eval_string : Object := Str "eval".
Definition empty_string : string := EmptyString.

(** ** Messages, locations and the isolate *)

Record JSMessageObject : Type := mkJSMessageObject {
  type : Z;
  argument : Object;
  start_position : Z;
  end_position : Z;
  script : Object;
  stack_frames : Object
}.

Definition set_argument (v : Object) (m : JSMessageObject) : JSMessageObject :=
  mkJSMessageObject (type m) v (start_position m) (end_position m) (script m)
    (stack_frames m).

Record MessageLocation : Type := mkMessageLocation {
  script_ : Handle Script;
  start_pos_ : Z;
  end_pos_ : Z;
  function_ : Handle JSFunction
}.

(** The three constructors of [MessageLocation]. *)
Definition MessageLocation_script (script : Script) (start_pos end_pos : Z)
    : MessageLocation :=
  mkMessageLocation (Some script) start_pos end_pos None.
Definition MessageLocation_function (script : Script) (start_pos end_pos : Z)
    (function : JSFunction) : MessageLocation :=
  mkMessageLocation (Some script) start_pos end_pos (Some function).
Definition MessageLocation_default : MessageLocation :=
  mkMessageLocation None (-1) (-1) None.

(** A registered listener: the address of the embedder's callback and the
    data registered with it.  A slot of the registry holds a listener or
    undefined ([None]) once the listener was removed. *)
Record Listener : Type := mkListener {
  callback : N;
  callback_data : Object
}.

(** The part of the isolate that reporting reads and writes.  Message
    objects live in [messages], addressed by their handle, so that
    [set_argument] is seen by every holder of the handle.  [stdout] collects
    the output of [PrintF], one entry per call. *)
Record Isolate : Type := mkIsolate {
  pending_exception : option Object;
  scheduled_exception : option Object;
  external_caught_exception : bool;
  message_listeners : list (option Listener);
  messages : gmap N JSMessageObject;
  stdout : list string
}.

Definition has_scheduled_exception (iso : Isolate) : bool :=
  bool_decide (is_Some (scheduled_exception iso)).
Definition set_pending_exception (e : option Object) (iso : Isolate) : Isolate :=
  mkIsolate e (scheduled_exception iso) (external_caught_exception iso)
    (message_listeners iso) (messages iso) (stdout iso).
Definition clear_pending_exception (iso : Isolate) : Isolate :=
  set_pending_exception None iso.
Definition clear_scheduled_exception (iso : Isolate) : Isolate :=
  mkIsolate (pending_exception iso) None (external_caught_exception iso)
    (message_listeners iso) (messages iso) (stdout iso).
Definition set_external_caught_exception (b : bool) (iso : Isolate) : Isolate :=
  mkIsolate (pending_exception iso) (scheduled_exception iso) b
    (message_listeners iso) (messages iso) (stdout iso).
Definition set_messages (ms : gmap N JSMessageObject) (iso : Isolate) : Isolate :=
  mkIsolate (pending_exception iso) (scheduled_exception iso)
    (external_caught_exception iso) (message_listeners iso) ms (stdout iso).
Definition PrintF (line : string) (iso : Isolate) : Isolate :=
  mkIsolate (pending_exception iso) (scheduled_exception iso)
    (external_caught_exception iso) (message_listeners iso) (messages iso)
    (stdout iso ++ [line]).

(** One call of a listener's callback: which callback, for which message
    and with which second argument. *)
Record Delivery : Type := mkDelivery {
  delivered_to : N;
  delivered_message : N;
  delivered_data : Object
}.

Inductive FrameSkipMode : Type := SKIP_FIRST | SKIP_UNTIL_SEEN | SKIP_NONE.

(** ** The collaborators of messages.cc

    What messages.cc consumes from the rest of the runtime and from the
    embedder, with no commitment to how it behaves. *)
Class Runtime : Type := {
  (* whether the build defines DEBUG, which compiles the DCHECKs in *)
  DEBUG : bool;
  (* the table behind MESSAGE_TEMPLATES(T) of messages.h: NAME and STRING of
     the templates kNAME = 0, 1, ..., in order *)
  MESSAGE_TEMPLATES : list (string * string);
  (* Execution::TryCall(isolate, isolate->no_side_effects_to_string_fun(),
     undefined, 1, &arg) *)
  TryCall_no_side_effects_to_string_fun : Object -> MaybeHandle Object;
  (* Object::ToString(isolate, object) *)
  Object_ToString : Object -> MaybeHandle string;
  (* Object::ToObject(isolate, value) of a value that is not a receiver *)
  Object_ToObject_primitive : Object -> MaybeHandle Object;
  (* string->ToCString(DISALLOW_NULLS) *)
  ToCString : string -> string;
  (* JSFunction::GetName(function) *)
  JSFunction_GetName : JSFunction -> string;
  (* wasm::GetWasmFunctionNameOrNull(isolate, wasm_obj, func_index) *)
  GetWasmFunctionNameOrNull : Object -> Z -> Object;
  (* JSObject::New(target, new_target) *)
  JSObject_New : JSFunction -> Object -> MaybeHandle JSObject;
  (* isolate->CaptureAndSetDetailedStackTrace(err) *)
  CaptureAndSetDetailedStackTrace : JSObject -> MaybeHandle JSObject;
  (* isolate->CaptureAndSetSimpleStackTrace(err, mode, caller) *)
  CaptureAndSetSimpleStackTrace :
    JSObject -> FrameSkipMode -> Handle Object -> MaybeHandle JSObject;
  (* callback(message, data) of the listener registered at an address, run
     inside its v8::TryCatch *)
  MessageCallback : N -> N -> Object -> Isolate -> Isolate
}.

Section MessagesCc.
Context `{Runtime}.

(** ** MessageTemplate *)

(** DCHECK(condition): checked in a debug build, compiled out of a release
    build. *)
Definition DCHECK (condition : bool) : Completion unit :=
  if DEBUG then CHECK condition else Normal tt.

Definition kLastMessage : Z := Z.of_nat (length MESSAGE_TEMPLATES).

(** [MessageTemplate::TemplateString]: the STRING of the template, NULL
    ([None]) for [kLastMessage] and for everything else. *)
Definition TemplateString (template_index : Z) : option string :=
  if (template_index <? 0)%Z then None
  else snd <$> (MESSAGE_TEMPLATES !! Z.to_nat template_index).

(** [args[i++]], under DCHECK(i < arraysize(args)): past the three
    arguments the DCHECK fails in a debug build and the read is out of the
    bounds of the array, with no defined result, in a release build; both
    are an abort. *)
Definition args_at (args : list string) (i : nat) : Completion string :=
  deref (args !! i).

(** The loop of [MessageTemplate::FormatMessage]: [c] is what remains of
    the template from the current character on, [i] the index of the next
    argument and [builder] the text appended so far.  The end of the C
    string is the end of [c] or a NUL character, whichever comes first. *)
Fixpoint FormatMessage_loop (args : list string) (c : string) (i : nat)
    (builder : string) {struct c} : Completion string :=
  match c with
  | EmptyString => Normal builder
  | String ch rest =>
      if Ascii.eqb ch Ascii.zero then Normal builder
      else if Ascii.eqb ch "%" then
        match rest with
        | String next rest' =>
            if Ascii.eqb next "%" then
              FormatMessage_loop args rest' i (builder +:+ "%")
            else
              arg ← args_at args i;
              FormatMessage_loop args rest (S i) (builder +:+ arg)
        | EmptyString =>
            arg ← args_at args i;
            FormatMessage_loop args rest (S i) (builder +:+ arg)
        end
      else FormatMessage_loop args rest i (builder +:+ String ch EmptyString)
  end.

(** [MessageTemplate::FormatMessage(template_index, arg0, arg1, arg2)]. *)
Definition FormatMessage (template_index : Z) (arg0 arg1 arg2 : string)
    : Completion string :=
  match TemplateString template_index with
  | None => Throw IllegalOperation
  | Some template_string =>
      FormatMessage_loop [arg0; arg1; arg2] template_string 0 EmptyString
  end.

(** [MessageTemplate::FormatMessage(isolate, template_index, arg)]: the
    string that it returns.  [String::Flatten] changes the representation
    of the result, not its characters.  What the call leaves of the
    isolate is the subject of [FormatMessageObject_on]. *)
Definition FormatMessageObject (template_index : Z) (arg : Object)
    : Completion string :=
  let format (result_string : string) :=
    match FormatMessage template_index result_string empty_string
            empty_string with
    | Normal result_string => Normal result_string
    | Throw _ => Normal "<error>"
    | Abort => Abort
    end in
  match arg with
  | Str result_string => format result_string
  | _ =>
      match TryCall_no_side_effects_to_string_fun arg with
      | Some (Str result_string) => format result_string
      | _ => Normal "<error>"
      end
  end.

(** ** CallSite *)

Record CallSite : Type := mkCallSite {
  receiver_ : Handle Object;
  fun_ : Handle JSFunction;
  pos_ : Z;
  wasm_obj_ : Handle Object;
  wasm_func_index_ : Z
}.

(** Modelled from the spec: the class declaration of [CallSite] in
    messages.h (not among the sources).  A site is a JavaScript frame when
    its function was set, a wasm frame when its wasm object was set; the
    members start out as null handles, position -1 and function index
    [static_cast<uint32_t>(-1)]. *)
Definition IsJavaScript (site : CallSite) : bool := bool_decide (is_Some (fun_ site)).
Definition IsWasm (site : CallSite) : bool := bool_decide (is_Some (wasm_obj_ site)).
Definition CallSite_members : CallSite := mkCallSite None None (-1) None (2 ^ 32 - 1).

(** [Object::ToInt32]. *)
Definition ToInt32 (v : Object) : option Z :=
  match v with
  | Smi n => Some n
  | _ => None
  end.

(** [CallSite::CallSite(isolate, call_site_obj)].  The position is read by
    the CHECK that ends the constructor; the invalid site returns before
    it.  The wasm function index is stored as a uint32, and only a debug
    build checks that it is not negative as an int. *)
Definition CallSite_new (call_site_obj : JSObject) : Completion CallSite :=
  let position :=
    GetDataProperty call_site_obj call_site_position_symbol in
  match GetDataProperty call_site_obj call_site_function_symbol with
  | OJSFunction f =>
      let receiver := GetDataProperty call_site_obj call_site_receiver_symbol in
      pos ← deref (ToInt32 position);
      Normal (mkCallSite (Some receiver) (Some f) pos None (2 ^ 32 - 1))
  | _ =>
      match GetDataProperty call_site_obj call_site_wasm_func_index_symbol with
      | Smi index =>
          let wasm_obj :=
            GetDataProperty call_site_obj call_site_wasm_obj_symbol in
          let wasm_func_index := (index mod 2 ^ 32)%Z in
          _ ← DCHECK (wasm_func_index <? 2 ^ 31)%Z;
          pos ← deref (ToInt32 position);
          Normal (mkCallSite None None pos (Some wasm_obj) wasm_func_index)
      | _ => Normal CallSite_members
      end
  end.

Definition GetFileName (site : CallSite) : Completion Object :=
  if negb (IsJavaScript site) then Normal Null
  else
    f ← deref (fun_ site);
    match SharedFunctionInfo.script (shared f) with
    | OScript script => Normal (Script.name script)
    | _ => Normal Null
    end.

Definition GetFunctionName (site : CallSite) : Completion Object :=
  if IsWasm site then
    wasm_obj ← deref (wasm_obj_ site);
    Normal (GetWasmFunctionNameOrNull wasm_obj (wasm_func_index_ site))
  else
    f ← deref (fun_ site);
    let result := JSFunction_GetName f in
    if negb (String.length result =? 0) then Normal (Str result)
    else
      match SharedFunctionInfo.script (shared f) with
      | OScript script =>
          match Script.compilation_type script with
          | COMPILATION_TYPE_EVAL => Normal eval_string
          | _ => Normal Null
          end
      | _ => Normal Null
      end.

Definition GetScriptNameOrSourceUrl (site : CallSite) : Completion Object :=
  if negb (IsJavaScript site) then Normal Null
  else
    f ← deref (fun_ site);
    match SharedFunctionInfo.script (shared f) with
    | OScript script =>
        if IsString (Script.source_url script)
        then Normal (Script.source_url script)
        else Normal (Script.name script)
    | _ => Normal Null
    end.

Definition CheckMethodName (obj : JSObject) (name : Object) (f : JSFunction)
    (config : Configuration) : bool :=
  match LookupIterator_state config obj name with
  | DATA v => is_identical_to v f
  | ACCESSOR (AccessorPair getter setter) =>
      is_identical_to getter f || is_identical_to setter f
  | _ => false
  end.

(** Lines 264-277 of [CallSite::GetMethodName]: the name of the function,
    without the prefix that ES2015 gives to getters and setters, when the
    receiver binds the function under it. *)
Definition GetMethodName_function_name (f : JSFunction) (obj : JSObject)
    : option string :=
  match SharedFunctionInfo.name (shared f) with
  | Str name =>
      let name :=
        if String.prefix "get " name || String.prefix "set " name
        then String.substring 4 (String.length name - 4) name
        else name in
      if CheckMethodName obj (Str name) f PROTOTYPE_CHAIN_SKIP_INTERCEPTOR
      then Some name
      else None
  | _ => None
  end.

(** The inner loop of [CallSite::GetMethodName] over the keys of one
    object: [None] is the early [return null_value()], [Some result] the
    value of [result] when the keys are exhausted. *)
Fixpoint GetMethodName_keys (f : JSFunction) (current_obj : JSObject)
    (keys : list Object) (result : Handle Object) : option (Handle Object) :=
  match keys with
  | [] => Some result
  | name_key :: keys =>
      if negb (IsName name_key) then
        GetMethodName_keys f current_obj keys result
      else if negb (CheckMethodName current_obj name_key f OWN_SKIP_INTERCEPTOR)
      then GetMethodName_keys f current_obj keys result
      else
        match result with
        | Some _ => None
        | None => GetMethodName_keys f current_obj keys (Some name_key)
        end
  end.

Definition GetMethodName_result (result : Handle Object) : Object :=
  match result with
  | Some name => name
  | None => Null
  end.

(** The outer loop of [CallSite::GetMethodName]: the prototype iterator
    starts at the receiver and is at its end at null; the loop breaks at a
    link that is not a [JSObject] or that requires an access check. *)
Fixpoint GetMethodName_walk (f : JSFunction) (current_obj : JSObject)
    (result : Handle Object) {struct current_obj} : Object :=
  match current_obj with
  | mkJSObject _ _ check _ proto =>
      if check then GetMethodName_result result
      else
        match GetMethodName_keys f current_obj
                (GetOwnEnumPropertyKeys current_obj) result with
        | None => Null
        | Some result =>
            match proto with
            | OJSObject next => GetMethodName_walk f next result
            | OJSFunction (mkJSFunction next _) =>
                GetMethodName_walk f next result
            | _ => GetMethodName_result result
            end
        end
  end.

(** [Object::ToObject(isolate, value).ToHandleChecked()]. *)
Definition ToObject (v : Object) : Completion Object :=
  if IsJSReceiver v then Normal v else deref (Object_ToObject_primitive v).

Definition GetMethodName (site : CallSite) : Completion Object :=
  if negb (IsJavaScript site) then Normal Null
  else
    receiver ← deref (receiver_ site);
    if IsNull receiver || IsUndefined receiver then Normal Null
    else
      receiver ← ToObject receiver;
      if negb (IsJSObject receiver) then Normal Null
      else
        obj ← JSObject_cast receiver;
        f ← deref (fun_ site);
        match GetMethodName_function_name f obj with
        | Some name => Normal (Str name)
        | None => Normal (GetMethodName_walk f obj None)
        end.

Definition GetLineNumber (site : CallSite) : Completion Z :=
  if (0 <=? pos_ site)%Z && IsJavaScript site then
    f ← deref (fun_ site);
    match SharedFunctionInfo.script (shared f) with
    | OScript script => Normal (Script_GetLineNumber script (pos_ site) + 1)%Z
    | _ => Normal (-1)%Z
    end
  else Normal (-1)%Z.

Definition GetColumnNumber (site : CallSite) : Completion Z :=
  if (0 <=? pos_ site)%Z && IsJavaScript site then
    f ← deref (fun_ site);
    match SharedFunctionInfo.script (shared f) with
    | OScript script => Normal (Script_GetColumnNumber script (pos_ site) + 1)%Z
    | _ => Normal (-1)%Z
    end
  else Normal (-1)%Z.

Definition IsNative (site : CallSite) : Completion bool :=
  if negb (IsJavaScript site) then Normal false
  else
    f ← deref (fun_ site);
    match SharedFunctionInfo.script (shared f) with
    | OScript script =>
        match Script.type script with
        | TYPE_NATIVE => Normal true
        | _ => Normal false
        end
    | _ => Normal false
    end.

Definition IsToplevel (site : CallSite) : Completion bool :=
  if IsWasm site then Normal false
  else
    receiver ← deref (receiver_ site);
    Normal (IsJSGlobalProxy receiver || IsNull receiver || IsUndefined receiver).

Definition IsEval (site : CallSite) : Completion bool :=
  if negb (IsJavaScript site) then Normal false
  else
    f ← deref (fun_ site);
    match SharedFunctionInfo.script (shared f) with
    | OScript script =>
        match Script.compilation_type script with
        | COMPILATION_TYPE_EVAL => Normal true
        | _ => Normal false
        end
    | _ => Normal false
    end.

Definition IsConstructor (site : CallSite) : Completion bool :=
  receiver ← deref (receiver_ site);
  if Name_Equals receiver call_site_constructor_symbol then Normal true
  else if negb (IsJavaScript site) || negb (IsJSObject receiver) then Normal false
  else
    obj ← JSObject_cast receiver;
    f ← deref (fun_ site);
    Normal (is_identical_to (GetDataProperty obj constructor_string) f).

(** ** ConstructError *)

Definition ConstructError (target : JSFunction) (new_target message : Object)
    (mode : FrameSkipMode) (suppress_detailed_trace : bool)
    : Completion JSObject :=
  let new_target_recv :=
    if IsJSReceiver new_target then new_target else OJSFunction target in
  err ← on_exception (JSObject_New target new_target_recv);
  err ← (if negb (IsUndefined message) then
           msg_string ← on_exception (Object_ToString message);
           on_exception
             (SetOwnPropertyIgnoreAttributes err message_string
                (Str msg_string) DONT_ENUM)
         else Normal err);
  err ← (if negb suppress_detailed_trace
         then on_exception (CaptureAndSetDetailedStackTrace err)
         else Normal err);
  let '(mode, caller) :=
    match mode with
    | SKIP_FIRST =>
        if IsJSFunction new_target then (SKIP_UNTIL_SEEN, Some new_target)
        else (mode, None)
    | _ => (mode, None)
    end in
  err ← on_exception (CaptureAndSetSimpleStackTrace err mode caller);
  Normal err.

(** ** MessageHandler *)

(** The conversion [%i] of [PrintF]. *)
Definition format_int (n : Z) : string := NilZero.string_of_int (Z.to_int n).

Definition newline : string := String "010" EmptyString.

Definition GetMessage (data : JSMessageObject) : Completion string :=
  FormatMessageObject (type data) (argument data).

Definition GetLocalizedMessage (data : JSMessageObject) : Completion string :=
  str ← GetMessage data;
  Normal (ToCString str).

Definition DefaultMessageReport (loc : option MessageLocation)
    (message_obj : JSMessageObject) (iso : Isolate) : Completion Isolate :=
  str ← GetLocalizedMessage message_obj;
  match loc with
  | None => Normal (PrintF (str +:+ newline) iso)
  | Some loc =>
      script ← deref (script_ loc);
      let data_str :=
        match Script.name script with
        | Str data => ToCString data
        | _ => "<unknown>"
        end in
      Normal
        (PrintF
           (data_str +:+ ":" +:+ format_int (start_pos_ loc) +:+ ": " +:+ str
              +:+ newline) iso)
  end.

(** Lines 97-117 of [MessageHandler::ReportMessage]: the text that replaces
    an argument that is an object. *)
Definition StringifyArgument (argument : Object) : Object :=
  let maybe_stringified :=
    if IsJSError argument then TryCall_no_side_effects_to_string_fun argument
    else Str <$> Object_ToString argument in
  match maybe_stringified with
  | Some stringified => stringified
  | None => Str "exception"
  end.

(** The loop of [MessageHandler::ReportMessage] over the indices below
    [global_length].  Next to the isolate it returns the deliveries it
    made, in order. *)
Fixpoint ReportMessage_listeners (message : N) (exception : Object)
    (indices : list nat) (iso : Isolate) : Completion (Isolate * list Delivery) :=
  match indices with
  | [] => Normal (iso, [])
  | i :: indices =>
      slot ← deref (message_listeners iso !! i);
      match slot with
      | None => ReportMessage_listeners message exception indices iso
      | Some listener =>
          let data :=
            if IsUndefined (callback_data listener) then exception
            else callback_data listener in
          let iso := MessageCallback (callback listener) message data iso in
          let iso :=
            if has_scheduled_exception iso then clear_scheduled_exception iso
            else iso in
          '(iso, deliveries) ←
            ReportMessage_listeners message exception indices iso;
          Normal (iso, mkDelivery (callback listener) message data :: deliveries)
      end
  end.

(** [MessageHandler::ReportMessage(isolate, loc, message)].  The exception
    scope saves the pending exception on entry and restores it on exit. *)
Definition ReportMessage (loc : option MessageLocation) (message : N)
    (iso : Isolate) : Completion (Isolate * list Delivery) :=
  let exception :=
    match pending_exception iso with
    | Some exception_object => exception_object
    | None => Undefined
    end in
  let exception_scope := pending_exception iso in
  let iso := clear_pending_exception iso in
  let iso := set_external_caught_exception false iso in
  m ← deref (messages iso !! message);
  let iso :=
    if IsJSObject (argument m) then
      set_messages
        (<[message := set_argument (StringifyArgument (argument m)) m]>
           (messages iso)) iso
    else iso in
  let global_length := length (message_listeners iso) in
  '(iso, deliveries) ←
    (if (global_length =? 0)%nat then
       m ← deref (messages iso !! message);
       iso ← DefaultMessageReport loc m iso;
       Normal
         (if has_scheduled_exception iso then clear_scheduled_exception iso
          else iso, [])
     else ReportMessage_listeners message exception (seq 0 global_length) iso);
  Normal (set_pending_exception exception_scope iso, deliveries).

End MessagesCc.

(** ** Templates as sequences of pieces

    The reading of a template that the properties of [FormatMessage] are
    stated against: a template is a sequence of literal characters,
    escaped percent signs and placeholders. *)

Inductive Piece : Type :=
| Literal (ch : ascii)
| Percent
| Placeholder.

Fixpoint template_of (pieces : list Piece) : string :=
  match pieces with
  | [] => EmptyString
  | Literal ch :: pieces => String ch (template_of pieces)
  | Percent :: pieces => String "%" (String "%" (template_of pieces))
  | Placeholder :: pieces => String "%" (template_of pieces)
  end.

(** The pieces that a template reads as. *)
Fixpoint pieces_of (template : string) : list Piece :=
  match template with
  | EmptyString => []
  | String ch rest =>
      if Ascii.eqb ch "%" then
        match rest with
        | String next rest' =>
            if Ascii.eqb next "%" then Percent :: pieces_of rest'
            else Placeholder :: pieces_of rest
        | EmptyString => [Placeholder]
        end
      else Literal ch :: pieces_of rest
  end.

Fixpoint has_nul (s : string) : bool :=
  match s with
  | EmptyString => false
  | String ch rest => Ascii.eqb ch Ascii.zero || has_nul rest
  end.

(** A literal is neither a percent sign nor the terminator, and a
    placeholder is not followed by a percent sign (the two would read as an
    escaped percent sign). *)
Fixpoint well_formed (pieces : list Piece) : bool :=
  match pieces with
  | [] => true
  | Literal ch :: pieces =>
      negb (Ascii.eqb ch "%") && negb (Ascii.eqb ch Ascii.zero)
      && well_formed pieces
  | Percent :: pieces => well_formed pieces
  | Placeholder :: pieces =>
      match pieces with
      | [] | Literal _ :: _ => well_formed pieces
      | _ => false
      end
  end.

Fixpoint placeholders (pieces : list Piece) : nat :=
  match pieces with
  | [] => 0
  | Placeholder :: pieces => S (placeholders pieces)
  | _ :: pieces => placeholders pieces
  end.

(** The text of a template whose placeholders are filled, in order, with
    the arguments. *)
Fixpoint rendering (pieces : list Piece) (args : list string) : string :=
  match pieces with
  | [] => EmptyString
  | Literal ch :: pieces => String ch (rendering pieces args)
  | Percent :: pieces => String "%" (rendering pieces args)
  | Placeholder :: pieces =>
      match args with
      | arg :: args => arg +:+ rendering pieces args
      | [] => rendering pieces []
      end
  end.

(** ** Method names reached by the walk

    The names that the walk of [GetMethodName] over the prototype chain
    finds bound to [f]: at each link that is walked, the own enumerable
    names [k] with [CheckMethodName link k f OWN_SKIP_INTERCEPTOR]. *)
Fixpoint method_matches (f : JSFunction) (current_obj : JSObject)
    {struct current_obj} : list Object :=
  match current_obj with
  | mkJSObject _ _ check _ proto =>
      if check then []
      else
        List.filter
          (fun k => IsName k && CheckMethodName current_obj k f OWN_SKIP_INTERCEPTOR)
          (GetOwnEnumPropertyKeys current_obj)
        ++ match proto with
           | OJSObject next => method_matches f next
           | OJSFunction (mkJSFunction next _) => method_matches f next
           | _ => []
           end
  end.

(** What becomes of [result] when the names [matches] are met one after
    the other: [None] once a second match is met (the early return of
    null), the single match or the unchanged [result] otherwise. *)
Fixpoint accumulate (result : Handle Object) (matches : list Object)
    : option (Handle Object) :=
  match matches with
  | [] => Some result
  | name :: matches =>
      match result with
      | Some _ => None
      | None => accumulate (Some name) matches
      end
  end.


(** ** The dispatch that the specification describes

    In the words of the specification: the membership of the registry is
    taken at the start of the dispatch, slots whose listener was removed
    are skipped, every live listener is invoked once with the message and
    its own data or else the failure that was pending, and after each
    listener a failure that was newly scheduled is discarded.  The loop of
    [ReportMessage] is compared with this definition. *)
Section Dispatch.
Context `{Runtime}.







End Dispatch.

(** The skip mode and the caller under which [ConstructError] captures the
    simple stack trace. *)
Definition capture_mode (mode : FrameSkipMode) (new_target : Object)
    : FrameSkipMode * Handle Object :=
  match mode with
  | SKIP_FIRST =>
      if IsJSFunction new_target then (SKIP_UNTIL_SEEN, Some new_target)
      else (SKIP_FIRST, None)
  | _ => (mode, None)
  end.

(** The line that the specification describes for a located message: the
    name of the script, the 1-based line of the location and the text. *)
Definition located_line_report (script : Script) (start_pos : Z)
    (text : string) : string :=
  (match Script.name script with Str data => data | _ => "<unknown>" end)
  +:+ ":" +:+ format_int (Script_GetLineNumber script start_pos + 1)
  +:+ ": " +:+ text.

(** ** A small runtime, used to exercise the statements below *)

Definition example_templates : list (string * string) :=
  [ ("CyclicProto", "Cyclic __proto__ value");
    ("Uncaught", "Uncaught %");
    ("NotDefined", "% is not defined");
    ("Sequence", "% then % then %");
    ("Percentage", "%%: % of %") ].

(** In the example runtime an object converts to the text stored under its
    own property [text], and the conversion throws when there is none. *)
Definition example_to_string (v : Object) : MaybeHandle string :=
  match v with
  | Str s => Some s
  | Smi n => Some (format_int n)
  | Undefined => Some "undefined"
  | Null => Some "null"
  | OJSObject o =>
      match GetDataProperty o (Str "text") with
      | Str s => Some s
      | _ => None
      end
  | _ => None
  end.

(** In the example runtime the C string of a string has a space for each
    NUL character. *)
Fixpoint example_ToCString (s : string) : string :=
  match s with
  | EmptyString => EmptyString
  | String ch rest =>
      String (if Ascii.eqb ch Ascii.zero then " "%char else ch)
        (example_ToCString rest)
  end.

Definition detailed_stack_trace_symbol : Object := Symbol 7.
Definition simple_stack_trace_symbol : Object := Symbol 8.

Definition example_skip_mode (mode : FrameSkipMode) (caller : Handle Object)
    : Object :=
  match mode, caller with
  | SKIP_FIRST, _ => Str "SKIP_FIRST"
  | SKIP_NONE, _ => Str "SKIP_NONE"
  | SKIP_UNTIL_SEEN, Some seen => AccessorPair (Str "SKIP_UNTIL_SEEN") seen
  | SKIP_UNTIL_SEEN, None => Str "SKIP_UNTIL_SEEN"
  end.

(** The listener at address 1 fails: it leaves an exception scheduled.
    The listener at address 2 prints the data it was given. *)
Definition example_callback (address message : N) (data : Object)
    (iso : Isolate) : Isolate :=
  match address with
  | 1%N =>
      mkIsolate (pending_exception iso) (Some (Str "listener failed"))
        (external_caught_exception iso) (message_listeners iso) (messages iso)
        (stdout iso)
  | 2%N =>
      PrintF (match data with Str s => s | _ => "data" end) iso
  | _ => iso
  end.

Definition example_runtime : Runtime := {|
  DEBUG := true;
  MESSAGE_TEMPLATES := example_templates;
  TryCall_no_side_effects_to_string_fun := fun v => Str <$> example_to_string v;
  Object_ToString := example_to_string;
  Object_ToObject_primitive := fun _ => None;
  ToCString := example_ToCString;
  JSFunction_GetName := fun f =>
    match SharedFunctionInfo.name (shared f) with
    | Str s => s
    | _ => EmptyString
    end;
  GetWasmFunctionNameOrNull := fun _ _ => Null;
  JSObject_New := fun _ new_target =>
    Some (mkJSObject 100 JS_ERROR_TYPE false [] new_target);
  CaptureAndSetDetailedStackTrace := fun err =>
    SetOwnPropertyIgnoreAttributes err detailed_stack_trace_symbol
      (Str "detailed") DONT_ENUM;
  CaptureAndSetSimpleStackTrace := fun err mode caller =>
    SetOwnPropertyIgnoreAttributes err simple_stack_trace_symbol
      (example_skip_mode mode caller) DONT_ENUM;
  MessageCallback := example_callback
|}.

Definition example_script : Script :=
  mkScript (Str "a.js") Undefined COMPILATION_TYPE_HOST TYPE_NORMAL [10; 20]%Z.

Definition example_function : JSFunction :=
  mkJSFunction (mkJSObject 10 JS_OBJECT_TYPE false [] Null)
    (mkSharedFunctionInfo (Str "greet") (OScript example_script)).

Definition anonymous_function : JSFunction :=
  mkJSFunction (mkJSObject 11 JS_OBJECT_TYPE false [] Null)
    (mkSharedFunctionInfo (Str EmptyString) (OScript example_script)).

(** [{greet: fn, hello: fn}]. *)
Definition two_names (f : JSFunction) : JSObject :=
  mkJSObject 20 JS_OBJECT_TYPE false
    [ mkProperty (Str "greet") NONE kData (OJSFunction f);
      mkProperty (Str "hello") NONE kData (OJSFunction f) ] Null.

(** [{greet: fn}] on top of a prototype [{other: 1}]. *)
Definition one_name (f : JSFunction) : JSObject :=
  mkJSObject 21 JS_OBJECT_TYPE false
    [ mkProperty (Str "greet") NONE kData (OJSFunction f) ]
    (OJSObject
       (mkJSObject 22 JS_OBJECT_TYPE false
          [ mkProperty (Str "other") NONE kData (Smi 1) ] Null)).

Definition call_site_object (f : JSFunction) (receiver : Object) (pos : Z)
    : JSObject :=
  mkJSObject 30 JS_OBJECT_TYPE false
    [ mkProperty call_site_function_symbol DONT_ENUM kData (OJSFunction f);
      mkProperty call_site_receiver_symbol DONT_ENUM kData receiver;
      mkProperty call_site_position_symbol DONT_ENUM kData (Smi pos) ] Null.

(** The site that [CallSite_new] makes of [call_site_object f receiver 15]. *)
Definition example_site (f : JSFunction) (receiver : Object) : CallSite :=
  mkCallSite (Some receiver) (Some f) 15 None (2 ^ 32 - 1).

(** A call-site object with neither the function nor the wasm marker. *)
Definition unmarked_call_site_object : JSObject :=
  mkJSObject 31 JS_OBJECT_TYPE false
    [ mkProperty call_site_position_symbol DONT_ENUM kData (Smi 15) ] Null.

Definition example_error_target : JSFunction :=
  mkJSFunction (mkJSObject 40 JS_OBJECT_TYPE false [] Null)
    (mkSharedFunctionInfo (Str "Error") Undefined).

Definition example_subclass : JSFunction :=
  mkJSFunction (mkJSObject 41 JS_OBJECT_TYPE false [] Null)
    (mkSharedFunctionInfo (Str "MyError") Undefined).

(** [{}] with a working conversion to "boom", and one without. *)
Definition convertible_object : JSObject :=
  mkJSObject 50 JS_OBJECT_TYPE false
    [ mkProperty (Str "text") NONE kData (Str "boom") ] Null.
Definition inconvertible_object : JSObject :=
  mkJSObject 51 JS_OBJECT_TYPE false [] Null.
Definition inconvertible_error : JSObject :=
  mkJSObject 52 JS_ERROR_TYPE false [] Null.

Definition example_message (argument : Object) : JSMessageObject :=
  mkJSMessageObject 1 argument 15 18 (OScript example_script) Undefined.

Definition example_isolate (listeners : list (option Listener))
    (argument : Object) : Isolate :=
  mkIsolate (Some (Str "pending")) None true listeners
    {[ 7%N := example_message argument ]} [].

Definition example_location : MessageLocation :=
  MessageLocation_script example_script 15 18.

(** The object that the example runtime builds for
    [class MyError extends Error], constructed with a convertible message
    under SKIP_FIRST. *)
Definition example_fresh : JSObject :=
  mkJSObject 100 JS_ERROR_TYPE false [] (OJSFunction example_subclass).
Definition example_with_message : JSObject :=
  mkJSObject 100 JS_ERROR_TYPE false
    [ mkProperty message_string DONT_ENUM kData (Str "boom") ]
    (OJSFunction example_subclass).
Definition example_detailed : JSObject :=
  mkJSObject 100 JS_ERROR_TYPE false
    [ mkProperty message_string DONT_ENUM kData (Str "boom");
      mkProperty detailed_stack_trace_symbol DONT_ENUM kData (Str "detailed") ]
    (OJSFunction example_subclass).
Definition example_error : JSObject :=
  mkJSObject 100 JS_ERROR_TYPE false
    [ mkProperty message_string DONT_ENUM kData (Str "boom");
      mkProperty detailed_stack_trace_symbol DONT_ENUM kData (Str "detailed");
      mkProperty simple_stack_trace_symbol DONT_ENUM kData
        (AccessorPair (Str "SKIP_UNTIL_SEEN") (OJSFunction example_subclass)) ]
    (OJSFunction example_subclass).

(** A registry with a failing listener first, a removed listener, and two
    registrations of the printing listener, one with data of its own. *)
Definition example_listeners : list (option Listener) :=
  [ Some (mkListener 1 Undefined); None; Some (mkListener 2 (Str "mine"));
    Some (mkListener 2 Undefined) ].

(** ** Definitions for the properties of the remaining code *)

(** A completion that is a value. *)
Definition completes {A : Type} (c : Completion A) : Prop :=
  ∃ a, c = Normal a.

(** A text in which every percent sign is doubled. *)
Fixpoint escape_percent (text : string) : string :=
  match text with
  | EmptyString => EmptyString
  | String ch rest =>
      if Ascii.eqb ch "%" then String "%" (String "%" (escape_percent rest))
      else String ch (escape_percent rest)
  end.

(** [MessageHandler::MakeMessageObject(isolate, message, location, argument,
    stack_frames)], over [Script::GetWrapper] and the empty script of the
    factory. *)
Section MakeMessageObject.
Variable Script_GetWrapper : Script -> Object.
Variable empty_script : Script.

Definition MakeMessageObject (message : Z) (location : option MessageLocation)
    (argument : Object) (stack_frames : Handle Object)
    : Completion JSMessageObject :=
  '(start, end_, script_handle) ←
    match location with
    | Some location =>
        script ← deref (script_ location);
        Normal (start_pos_ location, end_pos_ location, Script_GetWrapper script)
    | None => Normal ((-1)%Z, (-1)%Z, Script_GetWrapper empty_script)
    end;
  let stack_frames_handle :=
    match stack_frames with
    | None => Undefined
    | Some frames => frames
    end in
  Normal
    (mkJSMessageObject message argument start end_ script_handle
       stack_frames_handle).

End MakeMessageObject.

(** A runtime with another capture of the detailed stack trace, and one
    with another conversion to string. *)
Definition with_detailed_capture (rt : Runtime)
    (capture : JSObject -> MaybeHandle JSObject) : Runtime := {|
  DEBUG := @DEBUG rt;
  MESSAGE_TEMPLATES := @MESSAGE_TEMPLATES rt;
  TryCall_no_side_effects_to_string_fun :=
    @TryCall_no_side_effects_to_string_fun rt;
  Object_ToString := @Object_ToString rt;
  Object_ToObject_primitive := @Object_ToObject_primitive rt;
  ToCString := @ToCString rt;
  JSFunction_GetName := @JSFunction_GetName rt;
  GetWasmFunctionNameOrNull := @GetWasmFunctionNameOrNull rt;
  JSObject_New := @JSObject_New rt;
  CaptureAndSetDetailedStackTrace := capture;
  CaptureAndSetSimpleStackTrace := @CaptureAndSetSimpleStackTrace rt;
  MessageCallback := @MessageCallback rt
|}.

Definition with_ToString (rt : Runtime)
    (to_string : Object -> MaybeHandle string) : Runtime := {|
  DEBUG := @DEBUG rt;
  MESSAGE_TEMPLATES := @MESSAGE_TEMPLATES rt;
  TryCall_no_side_effects_to_string_fun :=
    @TryCall_no_side_effects_to_string_fun rt;
  Object_ToString := to_string;
  Object_ToObject_primitive := @Object_ToObject_primitive rt;
  ToCString := @ToCString rt;
  JSFunction_GetName := @JSFunction_GetName rt;
  GetWasmFunctionNameOrNull := @GetWasmFunctionNameOrNull rt;
  JSObject_New := @JSObject_New rt;
  CaptureAndSetDetailedStackTrace := @CaptureAndSetDetailedStackTrace rt;
  CaptureAndSetSimpleStackTrace := @CaptureAndSetSimpleStackTrace rt;
  MessageCallback := @MessageCallback rt
|}.

(** Further example data. *)

(** A wasm frame: function 3 of a wasm object, at position 7. *)
Definition wasm_object : JSObject :=
  mkJSObject 60 JS_OBJECT_TYPE false [] Null.
Definition wasm_call_site_object : JSObject :=
  mkJSObject 61 JS_OBJECT_TYPE false
    [ mkProperty call_site_wasm_obj_symbol DONT_ENUM kData (OJSObject wasm_object);
      mkProperty call_site_wasm_func_index_symbol DONT_ENUM kData (Smi 3);
      mkProperty call_site_position_symbol DONT_ENUM kData (Smi 7) ] Null.
Definition wasm_site : CallSite :=
  mkCallSite None None 7 (Some (OJSObject wasm_object)) 3.

(** A marked call-site object whose position is not a number. *)
Definition positionless_call_site_object : JSObject :=
  mkJSObject 62 JS_OBJECT_TYPE false
    [ mkProperty call_site_function_symbol DONT_ENUM kData
        (OJSFunction example_function);
      mkProperty call_site_receiver_symbol DONT_ENUM kData Undefined ] Null.

(** [get size() {...}] installed as the getter of the accessor [size]. *)
Definition size_getter : JSFunction :=
  mkJSFunction (mkJSObject 70 JS_OBJECT_TYPE false [] Null)
    (mkSharedFunctionInfo (Str "get size") (OScript example_script)).
Definition with_size_accessor : JSObject :=
  mkJSObject 71 JS_OBJECT_TYPE false
    [ mkProperty (Str "size") DONT_ENUM kAccessor
        (AccessorPair (OJSFunction size_getter) Undefined);
      mkProperty (Str "alias") NONE kData (OJSFunction size_getter) ] Null.

(** A receiver behind an access check that binds the example function. *)
Definition guarded_receiver : JSObject :=
  mkJSObject 72 JS_OBJECT_TYPE true
    [ mkProperty (Str "greet") NONE kData (OJSFunction example_function) ] Null.

(** A script loaded under a source URL, and a function of it. *)
Definition url_script : Script :=
  mkScript (Str "b.js") (Str "http://host/b.js") COMPILATION_TYPE_EVAL
    TYPE_NORMAL [10; 20]%Z.
Definition url_function : JSFunction :=
  mkJSFunction (mkJSObject 73 JS_OBJECT_TYPE false [] Null)
    (mkSharedFunctionInfo (Str EmptyString) (OScript url_script)).

(** A registry in which every listener was removed. *)
Definition removed_listeners : list (option Listener) := [None; None].

(** The example runtime with another table of templates: one with four
    placeholders and one with an escaped percent sign. *)
Definition crowded_templates : list (string * string) :=
  [ ("Crowded", "% % % %"); ("Sure", "100%% sure") ].

Definition crowded_runtime : Runtime := {|
  DEBUG := @DEBUG example_runtime;
  MESSAGE_TEMPLATES := crowded_templates;
  TryCall_no_side_effects_to_string_fun :=
    @TryCall_no_side_effects_to_string_fun example_runtime;
  Object_ToString := @Object_ToString example_runtime;
  Object_ToObject_primitive := @Object_ToObject_primitive example_runtime;
  ToCString := @ToCString example_runtime;
  JSFunction_GetName := @JSFunction_GetName example_runtime;
  GetWasmFunctionNameOrNull := @GetWasmFunctionNameOrNull example_runtime;
  JSObject_New := @JSObject_New example_runtime;
  CaptureAndSetDetailedStackTrace :=
    @CaptureAndSetDetailedStackTrace example_runtime;
  CaptureAndSetSimpleStackTrace :=
    @CaptureAndSetSimpleStackTrace example_runtime;
  MessageCallback := @MessageCallback example_runtime
|}.

(** The pieces of "Uncaught %" and of "% then % then %". *)
Definition uncaught_pieces : list Piece :=
  [ Literal "U"; Literal "n"; Literal "c"; Literal "a"; Literal "u";
    Literal "g"; Literal "h"; Literal "t"; Literal " "; Placeholder ].
Definition sequence_pieces : list Piece :=
  [ Placeholder; Literal " "; Literal "t"; Literal "h"; Literal "e";
    Literal "n"; Literal " "; Placeholder; Literal " "; Literal "t";
    Literal "h"; Literal "e"; Literal "n"; Literal " "; Placeholder ].
Definition crowded_pieces : list Piece :=
  [ Placeholder; Literal " "; Placeholder; Literal " "; Placeholder;
    Literal " "; Placeholder ].

(** The example runtime as a release build. *)
Definition release_runtime : Runtime := {|
  DEBUG := false;
  MESSAGE_TEMPLATES := @MESSAGE_TEMPLATES example_runtime;
  TryCall_no_side_effects_to_string_fun :=
    @TryCall_no_side_effects_to_string_fun example_runtime;
  Object_ToString := @Object_ToString example_runtime;
  Object_ToObject_primitive := @Object_ToObject_primitive example_runtime;
  ToCString := @ToCString example_runtime;
  JSFunction_GetName := @JSFunction_GetName example_runtime;
  GetWasmFunctionNameOrNull := @GetWasmFunctionNameOrNull example_runtime;
  JSObject_New := @JSObject_New example_runtime;
  CaptureAndSetDetailedStackTrace :=
    @CaptureAndSetDetailedStackTrace example_runtime;
  CaptureAndSetSimpleStackTrace :=
    @CaptureAndSetSimpleStackTrace example_runtime;
  MessageCallback := @MessageCallback example_runtime
|}.

(** A wasm call-site object whose function index is -1, and the site that
    a release build makes of it. *)
Definition negative_wasm_call_site_object : JSObject :=
  mkJSObject 63 JS_OBJECT_TYPE false
    [ mkProperty call_site_wasm_obj_symbol DONT_ENUM kData (OJSObject wasm_object);
      mkProperty call_site_wasm_func_index_symbol DONT_ENUM kData (Smi (-1));
      mkProperty call_site_position_symbol DONT_ENUM kData (Smi 7) ] Null.
Definition negative_wasm_site : CallSite :=
  mkCallSite None None 7 (Some (OJSObject wasm_object)) 4294967295.




(** ** The one-value overload of FormatMessage, with the isolate

    [MessageTemplate::FormatMessage(template_index, arg0, arg1, arg2)] and
    [MessageTemplate::FormatMessage(isolate, template_index, arg)] once
    more, now with the isolate that they leave: the first throws on the
    isolate of its arguments, and the second returns the fallback without
    clearing what was thrown. *)
Section FormatMessageOnIsolate.
Context `{Runtime}.
(* isolate->ThrowIllegalOperation(): the isolate after the throw *)
Variable ThrowIllegalOperation : Isolate → Isolate.
(* Execution::TryCall of the conversion function on a value: the isolate
   after the call *)
Variable TryCall_isolate : Object → Isolate → Isolate.

Definition FormatMessage_on (template_index : Z) (arg0 arg1 arg2 : string)
    (iso : Isolate) : Completion string * Isolate :=
  match TemplateString template_index with
  | None => (Throw IllegalOperation, ThrowIllegalOperation iso)
  | Some template_string =>
      (FormatMessage_loop [arg0; arg1; arg2] template_string 0 EmptyString, iso)
  end.

Definition FormatMessageObject_on (template_index : Z) (arg : Object)
    (iso : Isolate) : Completion string * Isolate :=
  let format (result_string : string) (iso : Isolate) :=
    let maybe_result_string :=
      FormatMessage_on template_index result_string empty_string empty_string
        iso in
    (match maybe_result_string.1 with
     | Normal result_string => Normal result_string
     | Throw _ => Normal "<error>"
     | Abort => Abort
     end, maybe_result_string.2) in
  match arg with
  | Str result_string => format result_string iso
  | _ =>
      let maybe_result := TryCall_no_side_effects_to_string_fun arg in
      let iso := TryCall_isolate arg iso in
      match maybe_result with
      | Some (Str result_string) => format result_string iso
      | _ => (Normal "<error>", iso)
      end
  end.

End FormatMessageOnIsolate.

(** A throw that leaves the illegal-access string pending. *)
Definition throw_illegal_access (iso : Isolate) : Isolate :=
  set_pending_exception (Some (Str "illegal_access")) iso.

(** * Properties *)

Section Properties.
Context `{Runtime}.

(** ** MessageTemplate *)

Lemma TemplateString_registered (template_index : Z) :
  is_Some (TemplateString template_index)
  ↔ (0 ≤ template_index < kLastMessage)%Z.
Proof.
  unfold TemplateString, kLastMessage.
  destruct (Z.ltb_spec template_index 0) as [Hneg | Hpos].
  - split; [intros [? [=]] | lia].
  - rewrite fmap_is_Some, lookup_lt_is_Some. lia.
Qed.

(** The scan of a template throws nothing: it ends normally, or aborts on
    a placeholder that has no argument. *)
Lemma FormatMessage_loop_not_thrown (args : list string) (n : nat) :
  ∀ (c : string) (i : nat) (builder : string) (e : Exception),
    String.length c ≤ n → FormatMessage_loop args c i builder ≠ Throw e.
Proof.
  induction n as [| n IH]; intros c i builder e Hlen.
  - destruct c; [discriminate | simpl in Hlen; lia].
  - destruct c as [| ch rest]; [discriminate |].
    simpl in Hlen. cbn [FormatMessage_loop].
    destruct (Ascii.eqb ch Ascii.zero); [discriminate |].
    destruct (Ascii.eqb ch "%"); [| apply IH; lia].
    destruct rest as [| next rest'].
    + unfold args_at. destruct (args !! i); discriminate.
    + destruct (Ascii.eqb next "%").
      * apply IH. simpl in Hlen. lia.
      * unfold args_at. destruct (args !! i) as [arg |]; [| discriminate].
        change (FormatMessage_loop args (String next rest') (S i)
                  (builder +:+ arg) ≠ Throw e).
        apply IH. lia.
Qed.

(** C4. A registered template id (an index below [kLastMessage]) never makes
    [FormatMessage] throw, and every other id makes it throw the illegal
    operation, whatever the arguments. *)
Theorem FormatMessage_throws_iff_unregistered
    (template_index : Z) (arg0 arg1 arg2 : string) :
  ((0 ≤ template_index < kLastMessage)%Z →
     ∀ e, FormatMessage template_index arg0 arg1 arg2 ≠ Throw e)
  ∧ (¬ (0 ≤ template_index < kLastMessage)%Z →
     FormatMessage template_index arg0 arg1 arg2 = Throw IllegalOperation).
Proof.
  unfold FormatMessage. split.
  - intros Hvalid e. apply TemplateString_registered in Hvalid as [t Ht].
    rewrite Ht. by eapply FormatMessage_loop_not_thrown.
  - intros Hinvalid. destruct (TemplateString template_index) as [t |] eqn:Ht;
      [| reflexivity].
    exfalso. apply Hinvalid, TemplateString_registered. by eexists.
Qed.

Lemma string_app_cons (ch : ascii) (a b : string) :
  String ch a +:+ b = String ch (a +:+ b).
Proof. reflexivity. Qed.

Lemma string_app_nil_r (a : string) : a +:+ EmptyString = a.
Proof.
  induction a as [| ch a IH]; [reflexivity |].
  by rewrite string_app_cons, IH.
Qed.

Lemma string_app_assoc (a b c : string) : (a +:+ b) +:+ c = a +:+ (b +:+ c).
Proof.
  induction a as [| ch a IH]; [reflexivity |].
  by rewrite !string_app_cons, IH.
Qed.

Lemma well_formed_after_placeholder (pieces : list Piece) :
  well_formed (Placeholder :: pieces) = true →
  well_formed pieces = true
  ∧ (template_of pieces = EmptyString
     ∨ ∃ ch rest, template_of pieces = String ch rest ∧ Ascii.eqb ch "%" = false).
Proof.
  simpl. destruct pieces as [| [ch | |] pieces]; try discriminate.
  - intros _. split; [reflexivity | by left].
  - intros Hwf. split; [exact Hwf |]. right. exists ch, (template_of pieces).
    split; [reflexivity |]. simpl in Hwf.
    destruct (Ascii.eqb ch "%"); [discriminate | reflexivity].
Qed.

(** The scan of a well-formed template appends the literal characters, one
    percent sign per escaped pair and, per placeholder, the next argument. *)
Lemma FormatMessage_loop_rendering (args : list string) (pieces : list Piece) :
  ∀ (i : nat) (builder : string),
    well_formed pieces = true →
    i + placeholders pieces ≤ length args →
    FormatMessage_loop args (template_of pieces) i builder
    = Normal (builder +:+ rendering pieces (drop i args)).
Proof.
  induction pieces as [| piece pieces IH]; intros i builder Hwf Hargs.
  - simpl. by rewrite string_app_nil_r.
  - destruct piece as [ch | |].
    + simpl in Hwf. apply andb_prop in Hwf as [Hch Hwf].
      apply andb_prop in Hch as [Hpercent Hnul].
      apply negb_true_iff in Hpercent, Hnul.
      simpl. rewrite Hnul, Hpercent.
      rewrite IH by (done || (simpl in Hargs; lia)).
      by rewrite string_app_assoc.
    + simpl in Hwf. simpl. rewrite IH by (done || (simpl in Hargs; lia)).
      by rewrite string_app_assoc.
    + apply well_formed_after_placeholder in Hwf as [Hwf Hnext].
      simpl in Hargs.
      destruct (lookup_lt_is_Some_2 args i) as [arg Harg]; [lia |].
      assert (Hloop :
        FormatMessage_loop args (template_of (Placeholder :: pieces)) i builder
        = FormatMessage_loop args (template_of pieces) (S i) (builder +:+ arg)).
      { simpl. destruct Hnext as [-> | (ch & rest & -> & Hch)].
        - unfold args_at. by rewrite Harg.
        - rewrite Hch. unfold args_at. by rewrite Harg. }
      rewrite Hloop, IH by (done || lia).
      rewrite (drop_S _ _ _ Harg). simpl. by rewrite string_app_assoc.
Qed.

(** Every template without a NUL character is the template of the pieces
    it reads as, and these are well formed. *)
Lemma pieces_of_template (n : nat) :
  ∀ template,
    String.length template ≤ n →
    has_nul template = false →
    template_of (pieces_of template) = template
    ∧ well_formed (pieces_of template) = true
    ∧ (∀ ch rest, template = String ch rest → Ascii.eqb ch "%" = false →
       ∃ pieces, pieces_of template = Literal ch :: pieces).
Proof.
  induction n as [| n IH]; intros template Hlen Hnul.
  - destruct template; [| simpl in Hlen; lia].
    split; [done |]. split; [done |]. intros ? ? [=].
  - destruct template as [| ch rest].
    { split; [done |]. split; [done |]. intros ? ? [=]. }
    simpl in Hlen, Hnul. apply orb_false_iff in Hnul as [Hch Hrest].
    cbn [pieces_of]. destruct (Ascii.eqb ch "%") eqn:Hpercent.
    + assert (Hliteral : ∀ pieces' ch' rest',
        String ch rest = String ch' rest' → Ascii.eqb ch' "%" = false →
        ∃ pieces, pieces' = Literal ch' :: pieces).
      { intros ? ? ? [= <- <-] Hne. congruence. }
      apply Ascii.eqb_eq in Hpercent as ->.
      destruct rest as [| next rest'].
      { split; [done |]. split; [done |]. apply Hliteral. }
      destruct (Ascii.eqb next "%") eqn:Hnext.
      * apply Ascii.eqb_eq in Hnext as ->.
        simpl in Hlen, Hrest.
        destruct (IH rest' ltac:(lia) Hrest) as (Htemplate & Hwf & _).
        cbn [template_of well_formed]. rewrite Htemplate.
        split; [done |]. split; [done |]. apply Hliteral.
      * destruct (IH (String next rest') ltac:(lia) Hrest)
          as (Htemplate & Hwf & Hnextpiece).
        destruct (Hnextpiece next rest' eq_refl Hnext) as [pieces Hpieces].
        cbn [template_of]. rewrite Htemplate. split; [done |].
        split; [| apply Hliteral].
        cbn [well_formed]. by rewrite Hpieces in *.
    + destruct (IH rest ltac:(lia) Hrest) as (Htemplate & Hwf & _).
      cbn [template_of well_formed]. rewrite Htemplate, Hpercent, Hch, Hwf.
      split; [done |]. split; [done |]. intros ? ? [= <- <-] _. by eexists.
Qed.

(** C5. A template read as literal characters, escaped percent signs and at
    most three placeholders formats to its literal characters, one percent
    sign for each escaped pair and, at each placeholder wherever it
    stands, the text of the next argument in order. *)
Theorem FormatMessage_fills_placeholders_in_order
    (template_index : Z) (pieces : list Piece) (arg0 arg1 arg2 : string) :
  TemplateString template_index = Some (template_of pieces) →
  well_formed pieces = true →
  placeholders pieces ≤ 3 →
  FormatMessage template_index arg0 arg1 arg2
  = Normal (rendering pieces [arg0; arg1; arg2]).
Proof.
  intros Htemplate Hwf Hcount. unfold FormatMessage. rewrite Htemplate.
  rewrite FormatMessage_loop_rendering by (done || (simpl; lia)).
  reflexivity.
Qed.

(** C6. The overload for one dynamic value formats a string argument as
    it is; any other argument goes through the conversion that has no side
    effects, and the result is the literal "<error>" when that conversion
    throws, when it yields something that is not a string, and when the
    formatting of the template throws. *)
Theorem FormatMessageObject_fallback (template_index : Z) (arg : Object) :
  let formatted (s : string) :=
    match FormatMessage template_index s empty_string empty_string with
    | Normal result => Normal result
    | Throw _ => Normal "<error>"
    | Abort => Abort
    end in
  (∀ s, arg = Str s → FormatMessageObject template_index arg = formatted s)
  ∧ (IsString arg = false →
     TryCall_no_side_effects_to_string_fun arg = None →
     FormatMessageObject template_index arg = Normal "<error>")
  ∧ (∀ result, IsString arg = false →
     TryCall_no_side_effects_to_string_fun arg = Some result →
     IsString result = false →
     FormatMessageObject template_index arg = Normal "<error>")
  ∧ (∀ s, IsString arg = false →
     TryCall_no_side_effects_to_string_fun arg = Some (Str s) →
     FormatMessageObject template_index arg = formatted s).
Proof.
  unfold FormatMessageObject. repeat split.
  - by intros s ->.
  - intros Harg Hcall. destruct arg; try discriminate; by rewrite Hcall.
  - intros result Harg Hcall Hresult.
    destruct arg; try discriminate; rewrite Hcall;
      by destruct result.
  - intros s Harg Hcall. destruct arg; try discriminate; by rewrite Hcall.
Qed.

(** ** CallSite *)

(** Induction along the prototype chain of an object. *)
Lemma prototype_chain_ind (P : JSObject → Prop) :
  (∀ i t check props proto,
     (∀ next, proto = OJSObject next → P next) →
     (∀ next sfi, proto = OJSFunction (mkJSFunction next sfi) → P next) →
     P (mkJSObject i t check props proto)) →
  ∀ o, P o.
Proof.
  intros Hstep. fix IH 1. intros [i t check props proto].
  apply Hstep.
  - intros next Hnext. destruct proto; try discriminate Hnext.
    injection Hnext as <-. apply IH.
  - intros next sfi Hnext. destruct proto as [| | | | | | | | [o s] | |];
      try discriminate Hnext.
    injection Hnext as <- <-. apply IH.
Qed.

Lemma accumulate_app (result : Handle Object) (xs ys : list Object) :
  accumulate result (xs ++ ys)
  = match accumulate result xs with
    | Some result => accumulate result ys
    | None => None
    end.
Proof.
  revert result. induction xs as [| x xs IH]; intros result; [reflexivity |].
  simpl. destruct result as [r |].
  - reflexivity.
  - apply IH.
Qed.

Lemma accumulate_None (matches : list Object) :
  accumulate None matches
  = match matches with
    | [] => Some None
    | [name] => Some (Some name)
    | _ => None
    end.
Proof. by destruct matches as [| name [| ? ?]]. Qed.

(** The loop over the keys of one object accumulates its matches. *)
Lemma GetMethodName_keys_accumulate (f : JSFunction) (current_obj : JSObject)
    (keys : list Object) :
  ∀ result,
    GetMethodName_keys f current_obj keys result
    = accumulate result
        (List.filter
           (fun k => IsName k
                     && CheckMethodName current_obj k f OWN_SKIP_INTERCEPTOR)
           keys).
Proof.
  induction keys as [| k keys IH]; intros result; [reflexivity |].
  simpl. destruct (IsName k); simpl; [| apply IH].
  destruct (CheckMethodName current_obj k f OWN_SKIP_INTERCEPTOR); simpl;
    [| apply IH].
  destruct result; [reflexivity | apply IH].
Qed.

(** The walk accumulates the matches of all the links it visits. *)
Lemma GetMethodName_walk_accumulate (f : JSFunction) (obj : JSObject) :
  ∀ result,
    GetMethodName_walk f obj result
    = match accumulate result (method_matches f obj) with
      | Some result => GetMethodName_result result
      | None => Null
      end.
Proof.
  induction obj as [i t check props proto IHobj IHfun]
    using prototype_chain_ind.
  intros result. cbn [GetMethodName_walk method_matches].
  destruct check; [reflexivity |].
  rewrite accumulate_app, GetMethodName_keys_accumulate.
  destruct (accumulate result _) as [result' |]; [| reflexivity].
  destruct proto as [| | | | | | | | [next sfi] | next |]; try reflexivity.
  - by eapply IHfun.
  - by apply IHobj.
Qed.

(** C3, amended. For a JavaScript frame, a null or undefined receiver gives
    null before any walk.  For a receiver that is an object, the declared
    name of the function (without a leading "get " or "set ") is returned
    at once when the receiver's chain binds the function under it;
    otherwise the walk accumulates, over the links it visits, the own
    enumerable names bound to the function: a single match is returned,
    no match and two or more matches give null. *)
Theorem GetMethodName_resolution (site : CallSite) (f : JSFunction) :
  fun_ site = Some f →
  (∀ receiver,
     receiver_ site = Some receiver →
     IsNull receiver || IsUndefined receiver = true →
     GetMethodName site = Normal Null)
  ∧ (∀ receiver obj,
     receiver_ site = Some receiver →
     JSObject_cast receiver = Normal obj →
     GetMethodName site
     = Normal
         match GetMethodName_function_name f obj with
         | Some name => Str name
         | None =>
             match method_matches f obj with
             | [name] => name
             | _ => Null
             end
         end).
Proof.
  intros Hfun. unfold GetMethodName, IsJavaScript. rewrite Hfun.
  rewrite bool_decide_eq_true_2 by eauto. split.
  - intros receiver -> Hnull. simpl. by rewrite Hnull.
  - intros receiver obj -> Hcast. simpl.
    assert (Hrecv : IsNull receiver || IsUndefined receiver = false
                    ∧ ToObject receiver = Normal receiver
                    ∧ IsJSObject receiver = true)
      by (destruct receiver; try discriminate Hcast; done).
    destruct Hrecv as (-> & -> & Hobj). simpl. rewrite Hobj, Hcast. simpl.
    destruct (GetMethodName_function_name f obj); [reflexivity |].
    rewrite GetMethodName_walk_accumulate, accumulate_None.
    by destruct (method_matches f obj) as [| name [| ? ?]].
Qed.

(** C2. A call-site object that bears neither the function marker nor the
    wasm function index constructs the invalid site.  On it the file name
    and the method name are null, line and column are -1, IsNative and
    IsEval are false; GetFunctionName, IsToplevel and IsConstructor
    dereference a null handle. *)
Theorem invalid_CallSite_accessors (call_site_obj : JSObject) :
  IsJSFunction (GetDataProperty call_site_obj call_site_function_symbol)
  = false →
  IsSmi (GetDataProperty call_site_obj call_site_wasm_func_index_symbol)
  = false →
  ∃ site,
    CallSite_new call_site_obj = Normal site
    ∧ GetFileName site = Normal Null
    ∧ GetMethodName site = Normal Null
    ∧ GetLineNumber site = Normal (-1)%Z
    ∧ GetColumnNumber site = Normal (-1)%Z
    ∧ IsNative site = Normal false
    ∧ IsEval site = Normal false
    ∧ GetFunctionName site = Abort
    ∧ IsToplevel site = Abort
    ∧ IsConstructor site = Abort.
Proof.
  intros Hfunction Hwasm. exists CallSite_members. split.
  - unfold CallSite_new.
    destruct (GetDataProperty call_site_obj call_site_function_symbol);
      try discriminate Hfunction;
      by destruct (GetDataProperty call_site_obj
                     call_site_wasm_func_index_symbol).
  - repeat split.
Qed.

(** ** ConstructError *)




(** What a completed or failed construction went through: the outcome is
    the empty handle, or the object that the simple capture returned after
    every earlier step succeeded. *)
Lemma ConstructError_steps (target : JSFunction) (new_target message : Object)
    (mode : FrameSkipMode) (suppress_detailed_trace : bool) :
  ConstructError target new_target message mode suppress_detailed_trace
  = Throw PendingException
  ∨ ∃ fresh with_message detailed err,
      ConstructError target new_target message mode suppress_detailed_trace
      = Normal err
      ∧ JSObject_New target
          (if IsJSReceiver new_target then new_target else OJSFunction target)
        = Some fresh
      ∧ (if IsUndefined message then with_message = fresh
         else ∃ msg,
             Object_ToString message = Some msg
             ∧ SetOwnPropertyIgnoreAttributes fresh message_string (Str msg)
                 DONT_ENUM = Some with_message)
      ∧ (if suppress_detailed_trace then detailed = with_message
         else CaptureAndSetDetailedStackTrace with_message = Some detailed)
      ∧ CaptureAndSetSimpleStackTrace detailed
          (capture_mode mode new_target).1 (capture_mode mode new_target).2
        = Some err.
Proof.
  unfold ConstructError.
  destruct (JSObject_New target _) as [fresh |] eqn:Hnew; [| by left].
  cbn [on_exception mbind Completion_bind].
  assert (Hmessage :
    (if negb (IsUndefined message) then
       msg_string ← on_exception (Object_ToString message);
       on_exception
         (SetOwnPropertyIgnoreAttributes fresh message_string (Str msg_string)
            DONT_ENUM)
     else Normal fresh) = Throw PendingException
    ∨ ∃ with_message,
        (if negb (IsUndefined message) then
           msg_string ← on_exception (Object_ToString message);
           on_exception
             (SetOwnPropertyIgnoreAttributes fresh message_string
                (Str msg_string) DONT_ENUM)
         else Normal fresh) = Normal with_message
        ∧ (if IsUndefined message then with_message = fresh
           else ∃ msg,
               Object_ToString message = Some msg
               ∧ SetOwnPropertyIgnoreAttributes fresh message_string (Str msg)
                   DONT_ENUM = Some with_message)).
  { destruct (IsUndefined message); simpl; [by right; eexists |].
    destruct (Object_ToString message) as [msg |]; simpl; [| by left].
    destruct (SetOwnPropertyIgnoreAttributes fresh message_string (Str msg)
                DONT_ENUM) as [with_message |] eqn:Hset; simpl; [| by left].
    right. exists with_message. split; [reflexivity |]. by exists msg. }
  destruct Hmessage as [-> | (with_message & -> & Hwith)]; [by left |].
  cbn [mbind Completion_bind].
  assert (Hdetailed :
    (if negb suppress_detailed_trace
     then on_exception (CaptureAndSetDetailedStackTrace with_message)
     else Normal with_message) = Throw PendingException
    ∨ ∃ detailed,
        (if negb suppress_detailed_trace
         then on_exception (CaptureAndSetDetailedStackTrace with_message)
         else Normal with_message) = Normal detailed
        ∧ (if suppress_detailed_trace then detailed = with_message
           else CaptureAndSetDetailedStackTrace with_message = Some detailed)).
  { destruct suppress_detailed_trace; simpl; [by right; eexists |].
    destruct (CaptureAndSetDetailedStackTrace with_message) as [detailed |];
      simpl; [| by left].
    right. by exists detailed. }
  destruct Hdetailed as [-> | (detailed & -> & Hdet)]; [by left |].
  cbn [mbind Completion_bind].
  assert (Hmode :
    match mode with
    | SKIP_FIRST =>
        if IsJSFunction new_target then (SKIP_UNTIL_SEEN, Some new_target)
        else (mode, None)
    | _ => (mode, None)
    end = capture_mode mode new_target) by by destruct mode.
  rewrite Hmode. destruct (capture_mode mode new_target) as [mode' caller].
  destruct (CaptureAndSetSimpleStackTrace detailed mode' caller) as [err |]
    eqn:Hsimple; simpl; [| by left].
  right. by exists fresh, with_message, detailed, err.
Qed.


(** When the allocation, the installation of the message and the detailed
    capture succeed, the construction ends with the capture of the simple
    stack trace and returns what that capture returns. *)
Lemma ConstructError_reaches_capture (target : JSFunction)
    (new_target message : Object) (mode : FrameSkipMode)
    (suppress_detailed_trace : bool) (fresh with_message detailed : JSObject) :
  JSObject_New target
    (if IsJSReceiver new_target then new_target else OJSFunction target)
  = Some fresh →
  (if IsUndefined message then with_message = fresh
   else ∃ msg,
       Object_ToString message = Some msg
       ∧ SetOwnPropertyIgnoreAttributes fresh message_string (Str msg)
           DONT_ENUM = Some with_message) →
  (if suppress_detailed_trace then detailed = with_message
   else CaptureAndSetDetailedStackTrace with_message = Some detailed) →
  ConstructError target new_target message mode suppress_detailed_trace
  = on_exception
      (CaptureAndSetSimpleStackTrace detailed
         (capture_mode mode new_target).1 (capture_mode mode new_target).2).
Proof.
  intros Hnew Hmsg Hdet. unfold ConstructError. rewrite Hnew.
  cbn [on_exception mbind Completion_bind].
  assert ((if negb (IsUndefined message) then
             msg_string ← on_exception (Object_ToString message);
             on_exception
               (SetOwnPropertyIgnoreAttributes fresh message_string
                  (Str msg_string) DONT_ENUM)
           else Normal fresh) = Normal with_message) as ->.
  { destruct (IsUndefined message); simpl; [by subst |].
    destruct Hmsg as (msg & -> & Hset). simpl. by rewrite Hset. }
  cbn [mbind Completion_bind].
  assert ((if negb suppress_detailed_trace
           then on_exception (CaptureAndSetDetailedStackTrace with_message)
           else Normal with_message) = Normal detailed) as ->.
  { destruct suppress_detailed_trace; simpl; [by subst | by rewrite Hdet]. }
  cbn [mbind Completion_bind].
  assert (match mode with
          | SKIP_FIRST =>
              if IsJSFunction new_target then (SKIP_UNTIL_SEEN, Some new_target)
              else (mode, None)
          | _ => (mode, None)
          end = capture_mode mode new_target) as -> by by destruct mode.
  destruct (capture_mode mode new_target) as [mode' caller]. simpl.
  by destruct (CaptureAndSetSimpleStackTrace detailed mode' caller).
Qed.

(** C8. Once the allocation, the installation of the message and the
    detailed capture (when it is not suppressed) have succeeded, the
    construction always captures the simple stack trace, and its outcome is
    the outcome of that capture: under SKIP_UNTIL_SEEN with the new target
    as the caller when the mode is SKIP_FIRST and the new target is a
    function, under the given mode with no caller otherwise.  Conversely
    every object that the construction returns was returned by that
    capture. *)
Theorem ConstructError_simple_stack_trace (target : JSFunction)
    (new_target message : Object) (mode : FrameSkipMode)
    (suppress_detailed_trace : bool) :
  let outcome :=
    ConstructError target new_target message mode suppress_detailed_trace in
  let refined := mode = SKIP_FIRST ∧ IsJSFunction new_target = true in
  (∀ fresh with_message detailed,
     JSObject_New target
       (if IsJSReceiver new_target then new_target else OJSFunction target)
     = Some fresh →
     (if IsUndefined message then with_message = fresh
      else ∃ msg,
          Object_ToString message = Some msg
          ∧ SetOwnPropertyIgnoreAttributes fresh message_string (Str msg)
              DONT_ENUM = Some with_message) →
     (if suppress_detailed_trace then detailed = with_message
      else CaptureAndSetDetailedStackTrace with_message = Some detailed) →
     (refined →
      outcome
      = on_exception
          (CaptureAndSetSimpleStackTrace detailed SKIP_UNTIL_SEEN
             (Some new_target)))
     ∧ (¬ refined →
        outcome
        = on_exception (CaptureAndSetSimpleStackTrace detailed mode None)))
  ∧ (∀ err, outcome = Normal err →
     ∃ traced,
       (refined →
        CaptureAndSetSimpleStackTrace traced SKIP_UNTIL_SEEN (Some new_target)
        = Some err)
       ∧ (¬ refined →
          CaptureAndSetSimpleStackTrace traced mode None = Some err)).
Proof.
  intros outcome refined.
  assert (Hmode :
    (refined → capture_mode mode new_target = (SKIP_UNTIL_SEEN, Some new_target))
    ∧ (¬ refined → capture_mode mode new_target = (mode, None))).
  { subst refined. split.
    - intros [-> Hfunction]. simpl. by rewrite Hfunction.
    - intros Hplain. destruct mode; try done. simpl.
      destruct (IsJSFunction new_target); [| done]. by destruct Hplain. }
  destruct Hmode as [Hrefined Hplain]. split.
  - intros fresh with_message detailed Hnew Hmsg Hdet. subst outcome.
    rewrite (ConstructError_reaches_capture _ _ _ _ _ _ _ _ Hnew Hmsg Hdet).
    split; intros Hcase.
    + by rewrite (Hrefined Hcase).
    + by rewrite (Hplain Hcase).
  - intros err Hok. subst outcome.
    destruct (ConstructError_steps target new_target message mode
                suppress_detailed_trace)
      as [Hthrow | (fresh & with_message & detailed & err' & Hok' & _ & _ & _
                    & Hsimple)]; [congruence |].
    assert (err' = err) as -> by congruence.
    exists detailed. split; intros Hcase.
    + by rewrite (Hrefined Hcase) in Hsimple.
    + by rewrite (Hplain Hcase) in Hsimple.
Qed.

(** ** MessageHandler *)

Lemma listeners_clear_scheduled (iso : Isolate) :
  message_listeners
    (if has_scheduled_exception iso then clear_scheduled_exception iso else iso)
  = message_listeners iso.
Proof. by destruct (has_scheduled_exception iso). Qed.

Lemma scheduled_clear_scheduled (iso : Isolate) :
  scheduled_exception
    (if has_scheduled_exception iso then clear_scheduled_exception iso else iso)
  = None.
Proof.
  unfold has_scheduled_exception.
  destruct (scheduled_exception iso) as [e |] eqn:Hscheduled.
  - rewrite bool_decide_eq_true_2 by eauto. reflexivity.
  - rewrite bool_decide_eq_false_2 by (intros [? [=]]). exact Hscheduled.
Qed.

Lemma messages_clear_scheduled (iso : Isolate) :
  messages
    (if has_scheduled_exception iso then clear_scheduled_exception iso else iso)
  = messages iso.
Proof. by destruct (has_scheduled_exception iso). Qed.

Lemma stdout_clear_scheduled (iso : Isolate) :
  stdout
    (if has_scheduled_exception iso then clear_scheduled_exception iso else iso)
  = stdout iso.
Proof. by destruct (has_scheduled_exception iso). Qed.





(** The loop leaves the message objects alone when the callbacks do. *)
Lemma ReportMessage_listeners_messages (message : N) (exception : Object) :
  (∀ address msg data iso,
     messages (MessageCallback address msg data iso) = messages iso) →
  ∀ (indices : list nat) (iso iso' : Isolate) (deliveries : list Delivery),
    ReportMessage_listeners message exception indices iso
    = Normal (iso', deliveries) →
    messages iso' = messages iso.
Proof.
  intros Hcallbacks.
  induction indices as [| i indices IH]; intros iso iso' deliveries.
  - by intros [= <- _].
  - cbn [ReportMessage_listeners].
    destruct (message_listeners iso !! i) as [[listener |] |];
      cbn [deref mbind Completion_bind]; [| apply IH | discriminate].
    set (iso2 := if has_scheduled_exception _ then _ else _).
    destruct (ReportMessage_listeners message exception indices iso2)
      as [[iso3 deliveries3] | |] eqn:Hloop; try discriminate.
    cbn [mbind Completion_bind]. intros [= <- _].
    rewrite (IH _ _ _ Hloop). subst iso2.
    by rewrite messages_clear_scheduled, Hcallbacks.
Qed.

(** What [ReportMessage] does once the message is found: it replaces an
    argument that is an object, runs the default reporter or the listeners
    and restores the pending exception. *)
Lemma ReportMessage_found (loc : option MessageLocation) (message : N)
    (iso : Isolate) (m : JSMessageObject) :
  messages iso !! message = Some m →
  let exception :=
    match pending_exception iso with Some e => e | None => Undefined end in
  let m' :=
    if IsJSObject (argument m)
    then set_argument (StringifyArgument (argument m)) m else m in
  let iso1 :=
    mkIsolate None (scheduled_exception iso) false (message_listeners iso)
      (if IsJSObject (argument m) then <[message := m']> (messages iso)
       else messages iso) (stdout iso) in
  messages iso1 !! message = Some m'
  ∧ ReportMessage loc message iso
    = '(iso2, deliveries) ←
        (if (length (message_listeners iso) =? 0)%nat then
           iso2 ← DefaultMessageReport loc m' iso1;
           Normal
             (if has_scheduled_exception iso2
              then clear_scheduled_exception iso2 else iso2, [])
         else
           ReportMessage_listeners message exception
             (seq 0 (length (message_listeners iso))) iso1);
      Normal (set_pending_exception (pending_exception iso) iso2, deliveries).
Proof.
  intros Hm exception m' iso1.
  assert (Hm' : messages iso1 !! message = Some m').
  { subst iso1 m'. simpl. destruct (IsJSObject (argument m)); [| done].
    apply lookup_insert_eq. }
  split; [exact Hm' |].
  unfold ReportMessage. simpl. rewrite Hm. cbn [deref mbind Completion_bind].
  subst iso1 m'. destruct (IsJSObject (argument m)); simpl.
  - destruct (length (message_listeners iso) =? 0)%nat; [| reflexivity].
    by rewrite lookup_insert_eq.
  - destruct (length (message_listeners iso) =? 0)%nat; [| reflexivity].
    by rewrite Hm.
Qed.


Lemma messages_DefaultMessageReport (loc : option MessageLocation)
    (m : JSMessageObject) (iso iso' : Isolate) :
  DefaultMessageReport loc m iso = Normal iso' → messages iso' = messages iso.
Proof.
  unfold DefaultMessageReport.
  destruct (GetLocalizedMessage m) as [str | |]; try discriminate.
  cbn [mbind Completion_bind]. destruct loc as [l |].
  - destruct (script_ l); try discriminate. by intros [= <-].
  - by intros [= <-].
Qed.

(** C10. When the argument of the message is an object whose conversion
    throws (the conversion without side effects for an error object, the
    ordinary conversion for any other object), the text that replaces it
    is "exception", not "<error>", and, the callbacks leaving message
    objects alone, it is the argument of the message object when
    [ReportMessage] returns. *)
Theorem ReportMessage_exception_fallback (loc : option MessageLocation)
    (message : N) (iso : Isolate) (m : JSMessageObject) :
  (∀ address msg data iso,
     messages (MessageCallback address msg data iso) = messages iso) →
  messages iso !! message = Some m →
  IsJSObject (argument m) = true →
  (if IsJSError (argument m)
   then TryCall_no_side_effects_to_string_fun (argument m) = None
   else Object_ToString (argument m) = None) →
  StringifyArgument (argument m) = Str "exception"
  ∧ StringifyArgument (argument m) ≠ Str "<error>"
  ∧ ∀ iso' deliveries,
      ReportMessage loc message iso = Normal (iso', deliveries) →
      messages iso' !! message = Some (set_argument (Str "exception") m).
Proof.
  intros Hcallbacks Hm Hobject Hthrows.
  assert (Hfallback : StringifyArgument (argument m) = Str "exception").
  { unfold StringifyArgument.
    destruct (IsJSError (argument m)); by rewrite Hthrows. }
  split; [exact Hfallback |]. split; [by rewrite Hfallback |].
  intros iso' deliveries.
  destruct (ReportMessage_found loc message iso m Hm) as [Hm' ->].
  rewrite Hobject, Hfallback in *.
  set (iso1 := mkIsolate _ _ _ _ _ _) in *.
  destruct (length (message_listeners iso) =? 0)%nat.
  - destruct (DefaultMessageReport loc _ iso1) as [iso2 | |] eqn:Hdefault;
      try discriminate.
    cbn [mbind Completion_bind]. intros [= <- _]. simpl.
    by rewrite messages_clear_scheduled,
      (messages_DefaultMessageReport _ _ _ _ Hdefault).
  - destruct (ReportMessage_listeners _ _ _ iso1) as [[iso2 ds] | |] eqn:Hloop;
      try discriminate.
    cbn [mbind Completion_bind]. intros [= <- _]. simpl.
    by rewrite (ReportMessage_listeners_messages _ _ Hcallbacks _ _ _ _ Hloop).
Qed.

(** C1, amended. With an empty registry of listeners the default reporter
    runs once and no listener is called: it prints one line, which is the
    text of the message followed by a newline when there is no location
    and, when there is a location with a script, the name of the script
    (or "<unknown>" when the name is not a string), a colon, the start
    offset of the location in decimal, a colon and a space, the text and a
    newline. *)
Theorem ReportMessage_default_report (message : N) (iso : Isolate)
    (m : JSMessageObject) (text : string) :
  message_listeners iso = [] →
  messages iso !! message = Some m →
  GetLocalizedMessage
    (if IsJSObject (argument m)
     then set_argument (StringifyArgument (argument m)) m else m)
  = Normal text →
  (∃ iso',
     ReportMessage None message iso = Normal (iso', [])
     ∧ stdout iso' = stdout iso ++ [text +:+ newline])
  ∧ (∀ loc script,
     script_ loc = Some script →
     ∃ iso',
       ReportMessage (Some loc) message iso = Normal (iso', [])
       ∧ stdout iso'
         = stdout iso
           ++ [(match Script.name script with
                | Str data => ToCString data
                | _ => "<unknown>"
                end)
               +:+ ":" +:+ format_int (start_pos_ loc) +:+ ": " +:+ text
               +:+ newline]).
Proof.
  intros Hregistry Hm Htext. split.
  - destruct (ReportMessage_found None message iso m Hm) as [_ ->].
    rewrite Hregistry. cbn [length Nat.eqb].
    unfold DefaultMessageReport. rewrite Htext. cbn [mbind Completion_bind].
    eexists. split; [reflexivity |]. simpl. by rewrite stdout_clear_scheduled.
  - intros loc script Hscript.
    destruct (ReportMessage_found (Some loc) message iso m Hm) as [_ ->].
    rewrite Hregistry. cbn [length Nat.eqb].
    unfold DefaultMessageReport. rewrite Htext, Hscript.
    cbn [deref mbind Completion_bind].
    eexists. split; [reflexivity |]. simpl. by rewrite stdout_clear_scheduled.
Qed.

End Properties.

(** * The statements at concrete inputs *)

Lemma FormatMessage_throws_iff_unregistered_witness :
  (∀ e, @FormatMessage example_runtime 3 "a" "b" "c" ≠ Throw e)
  ∧ @FormatMessage example_runtime 5 "a" "b" "c" = Throw IllegalOperation.
Proof.
  split.
  - apply (@FormatMessage_throws_iff_unregistered example_runtime 3 "a" "b" "c").
    vm_compute. by split.
  - apply (@FormatMessage_throws_iff_unregistered example_runtime 5 "a" "b" "c").
    vm_compute. intros [_ Hlt]. discriminate Hlt.
Defined.

Lemma FormatMessage_fills_placeholders_in_order_witness :
  @FormatMessage example_runtime 4 "cpu" "50" "100" = Normal "%: cpu of 50".
Proof.
  apply (@FormatMessage_fills_placeholders_in_order example_runtime 4
           [Percent; Literal ":"; Literal " "; Placeholder; Literal " ";
            Literal "o"; Literal "f"; Literal " "; Placeholder]
           "cpu" "50" "100").
  - reflexivity.
  - reflexivity.
  - simpl. lia.
Defined.

Lemma FormatMessageObject_fallback_witness :
  @FormatMessageObject example_runtime 1 (Str "boom") = Normal "Uncaught boom"
  ∧ @FormatMessageObject example_runtime 1 (OJSObject inconvertible_object)
    = Normal "<error>"
  ∧ @FormatMessageObject example_runtime 1 (Smi 7) = Normal "Uncaught 7".
Proof.
  split; [| split].
  - destruct (@FormatMessageObject_fallback example_runtime 1 (Str "boom"))
      as (Hstring & _).
    exact (Hstring "boom" eq_refl).
  - destruct (@FormatMessageObject_fallback example_runtime 1
                (OJSObject inconvertible_object)) as (_ & Hthrows & _).
    exact (Hthrows eq_refl eq_refl).
  - destruct (@FormatMessageObject_fallback example_runtime 1 (Smi 7))
      as (_ & _ & _ & Hconverted).
    exact (Hconverted "7" eq_refl eq_refl).
Defined.

(** C3, as stated, fails: the function named "greet" is bound under the two
    enumerable names "greet" and "hello" of the receiver, and the method
    name is "greet", not null. *)
Lemma GetMethodName_two_matches_not_null :
  method_matches example_function (two_names example_function)
  = [Str "greet"; Str "hello"]
  ∧ @CallSite_new example_runtime
      (call_site_object example_function
         (OJSObject (two_names example_function)) 15)
    = Normal (example_site example_function
                (OJSObject (two_names example_function)))
  ∧ @GetMethodName example_runtime
      (example_site example_function (OJSObject (two_names example_function)))
    = Normal (Str "greet")
  ∧ @GetMethodName example_runtime
      (example_site example_function (OJSObject (two_names example_function)))
    ≠ Normal Null.
Proof.
  split; [reflexivity |]. split; [reflexivity |].
  split; [reflexivity | discriminate].
Defined.

Lemma GetMethodName_resolution_witness :
  @GetMethodName example_runtime (example_site anonymous_function Undefined)
  = Normal Null
  ∧ @GetMethodName example_runtime
      (example_site anonymous_function
         (OJSObject (one_name anonymous_function)))
    = Normal (Str "greet")
  ∧ @GetMethodName example_runtime
      (example_site anonymous_function
         (OJSObject (two_names anonymous_function)))
    = Normal Null.
Proof.
  split; [| split].
  - apply (proj1 (@GetMethodName_resolution example_runtime
                    (example_site anonymous_function Undefined)
                    anonymous_function eq_refl) Undefined); reflexivity.
  - apply (proj2 (@GetMethodName_resolution example_runtime
                    (example_site anonymous_function
                       (OJSObject (one_name anonymous_function)))
                    anonymous_function eq_refl)
             (OJSObject (one_name anonymous_function))
             (one_name anonymous_function)); reflexivity.
  - apply (proj2 (@GetMethodName_resolution example_runtime
                    (example_site anonymous_function
                       (OJSObject (two_names anonymous_function)))
                    anonymous_function eq_refl)
             (OJSObject (two_names anonymous_function))
             (two_names anonymous_function)); reflexivity.
Defined.

Lemma invalid_CallSite_accessors_witness :
  ∃ site,
    @CallSite_new example_runtime unmarked_call_site_object = Normal site
    ∧ GetFileName site = Normal Null
    ∧ @GetMethodName example_runtime site = Normal Null
    ∧ GetLineNumber site = Normal (-1)%Z
    ∧ GetColumnNumber site = Normal (-1)%Z
    ∧ IsNative site = Normal false
    ∧ IsEval site = Normal false
    ∧ @GetFunctionName example_runtime site = Abort
    ∧ IsToplevel site = Abort
    ∧ IsConstructor site = Abort.
Proof.
  apply (@invalid_CallSite_accessors example_runtime unmarked_call_site_object);
    reflexivity.
Defined.

Lemma ReportMessage_default_report_witness :
  (∃ iso',
     @ReportMessage example_runtime None 7 (example_isolate [] (Str "boom"))
     = Normal (iso', [])
     ∧ stdout iso' = ["Uncaught boom" +:+ newline])
  ∧ ∃ iso',
      @ReportMessage example_runtime (Some example_location) 7
        (example_isolate [] (Str "boom")) = Normal (iso', [])
      ∧ stdout iso' = ["a.js:15: Uncaught boom" +:+ newline].
Proof.
  destruct (@ReportMessage_default_report example_runtime 7
              (example_isolate [] (Str "boom")) (example_message (Str "boom"))
              "Uncaught boom" eq_refl eq_refl eq_refl) as [Hunlocated Hlocated].
  split.
  - exact Hunlocated.
  - exact (Hlocated example_location example_script eq_refl).
Defined.

(** C1, as stated, fails: for a location at offset 15, on line 2 of the
    script "a.js", the default reporter prints "a.js:15: Uncaught boom" and
    a newline, not the line number. *)
Lemma ReportMessage_prints_offset_not_line :
  located_line_report example_script 15 "Uncaught boom"
  = "a.js:2: Uncaught boom"
  ∧ ∃ iso',
      @ReportMessage example_runtime (Some example_location) 7
        (example_isolate [] (Str "boom")) = Normal (iso', [])
      ∧ stdout iso' = ["a.js:15: Uncaught boom" +:+ newline]
      ∧ stdout iso' ≠ [located_line_report example_script 15 "Uncaught boom"]
      ∧ stdout iso'
        ≠ [located_line_report example_script 15 "Uncaught boom" +:+ newline].
Proof.
  split; [reflexivity |]. eexists. split; [reflexivity |].
  split; [reflexivity |]. split; discriminate.
Defined.



Lemma ConstructError_simple_stack_trace_witness :
  @ConstructError example_runtime example_error_target
    (OJSFunction example_subclass) (OJSObject convertible_object) SKIP_FIRST
    false
  = on_exception
      (@CaptureAndSetSimpleStackTrace example_runtime example_detailed
         SKIP_UNTIL_SEEN (Some (OJSFunction example_subclass)))
  ∧ @ConstructError example_runtime example_error_target
      (OJSFunction example_subclass) (OJSObject convertible_object) SKIP_FIRST
      false = Normal example_error.
Proof.
  destruct (@ConstructError_simple_stack_trace example_runtime
              example_error_target (OJSFunction example_subclass)
              (OJSObject convertible_object) SKIP_FIRST false)
    as [Hcapture _].
  destruct (Hcapture example_fresh example_with_message example_detailed)
    as [Hrefined _].
  - reflexivity.
  - by exists "boom".
  - reflexivity.
  - split; [exact (Hrefined (conj eq_refl eq_refl)) | reflexivity].
Defined.

Lemma example_callback_messages (address msg : N) (data : Object)
    (iso : Isolate) :
  messages (example_callback address msg data iso) = messages iso.
Proof. unfold example_callback. by repeat case_match. Qed.



Lemma ReportMessage_exception_fallback_witness :
  @StringifyArgument example_runtime (OJSObject inconvertible_error)
  = Str "exception"
  ∧ @StringifyArgument example_runtime (OJSObject inconvertible_object)
    = Str "exception"
  ∧ ∃ iso' deliveries,
      @ReportMessage example_runtime None 7
        (example_isolate example_listeners (OJSObject inconvertible_error))
      = Normal (iso', deliveries)
      ∧ messages iso' !! 7%N
        = Some (example_message (Str "exception")).
Proof.
  destruct (@ReportMessage_exception_fallback example_runtime None 7
              (example_isolate example_listeners (OJSObject inconvertible_error))
              (example_message (OJSObject inconvertible_error))
              example_callback_messages eq_refl eq_refl eq_refl)
    as (Herror & _ & Hfinal).
  destruct (@ReportMessage_exception_fallback example_runtime None 7
              (example_isolate [] (OJSObject inconvertible_object))
              (example_message (OJSObject inconvertible_object))
              example_callback_messages eq_refl eq_refl eq_refl)
    as (Hobject & _ & _).
  split; [exact Herror |]. split; [exact Hobject |].
  eexists _, _. split; [reflexivity |].
  apply (Hfinal _ _ eq_refl).
Defined.

(** * Further properties *)

Section FurtherProperties.
Context `{Runtime}.

(** ** CallSite: construction *)

(** X1. A constructed site is a JavaScript frame exactly when the function
    marker of the call-site object holds a function, a wasm frame exactly
    when it does not and the wasm function index is a small integer, and
    never both; a JavaScript frame has a receiver. *)
Theorem CallSite_new_classifies (call_site_obj : JSObject) (site : CallSite) :
  CallSite_new call_site_obj = Normal site →
  IsJavaScript site
  = IsJSFunction (GetDataProperty call_site_obj call_site_function_symbol)
  ∧ IsWasm site
    = negb (IsJSFunction
              (GetDataProperty call_site_obj call_site_function_symbol))
      && IsSmi (GetDataProperty call_site_obj call_site_wasm_func_index_symbol)
  ∧ IsJavaScript site && IsWasm site = false
  ∧ (IsJavaScript site = true → is_Some (receiver_ site))
  ∧ (IsJavaScript site = false → receiver_ site = None).
Proof.
  unfold CallSite_new. intros Hnew.
  destruct (GetDataProperty call_site_obj call_site_function_symbol)
    as [| | | | | | | | f | |] eqn:Hf.
  9: { destruct (ToInt32 _); [| discriminate]. injection Hnew as <-.
       simpl. repeat split; eauto; discriminate. }
  all: destruct (GetDataProperty call_site_obj
                   call_site_wasm_func_index_symbol) eqn:Hw.
  all: try (injection Hnew as <-; by repeat split).
  all: destruct (DCHECK _); try discriminate.
  all: cbn [mbind Completion_bind] in Hnew.
  all: destruct (ToInt32 _); try discriminate.
  all: injection Hnew as <-; by repeat split.
Qed.

(** X2. The constructor throws nothing.  For an object with the function
    marker it aborts exactly when the position is not an int32.  For an
    object with only the wasm function index it aborts exactly when the
    position is not an int32 or, in a debug build only, the index is
    negative as an int (as a uint32, not below 2^31); a release build makes
    a wasm site of a negative index, stored as a uint32. *)
Theorem CallSite_new_aborts (call_site_obj : JSObject) :
  let position := GetDataProperty call_site_obj call_site_position_symbol in
  (∀ e, CallSite_new call_site_obj ≠ Throw e)
  ∧ (IsJSFunction (GetDataProperty call_site_obj call_site_function_symbol)
     = true →
     (CallSite_new call_site_obj = Abort ↔ ToInt32 position = None))
  ∧ (∀ index,
     IsJSFunction (GetDataProperty call_site_obj call_site_function_symbol)
     = false →
     GetDataProperty call_site_obj call_site_wasm_func_index_symbol = Smi index →
     (CallSite_new call_site_obj = Abort
      ↔ (DEBUG = true ∧ (2 ^ 31 ≤ index mod 2 ^ 32)%Z)
        ∨ ToInt32 position = None)
     ∧ (DEBUG = false →
        ∀ pos,
          ToInt32 position = Some pos →
          CallSite_new call_site_obj
          = Normal
              (mkCallSite None None pos
                 (Some (GetDataProperty call_site_obj call_site_wasm_obj_symbol))
                 (index mod 2 ^ 32)))).
Proof.
  intros position. subst position. unfold CallSite_new, DCHECK.
  split; [| split].
  - intros e.
    destruct (GetDataProperty call_site_obj call_site_function_symbol)
      as [| | | | | | | | f | |].
    9: { destruct (ToInt32 _); discriminate. }
    all: destruct (GetDataProperty call_site_obj
                     call_site_wasm_func_index_symbol); try discriminate.
    all: destruct DEBUG; [destruct (_ <? _)%Z |];
      cbn [CHECK mbind Completion_bind]; try discriminate.
    all: destruct (ToInt32 _); discriminate.
  - intros Hf.
    destruct (GetDataProperty call_site_obj call_site_function_symbol);
      try discriminate Hf.
    destruct (ToInt32 _); simpl; split; (done || discriminate).
  - intros index Hf ->.
    assert (Hwasm :
      ((_ ← (if DEBUG then CHECK (index mod 2 ^ 32 <? 2 ^ 31)%Z else Normal tt);
        pos ← deref
                (ToInt32 (GetDataProperty call_site_obj call_site_position_symbol));
        Normal
          (mkCallSite None None pos
             (Some (GetDataProperty call_site_obj call_site_wasm_obj_symbol))
             (index mod 2 ^ 32))) = Abort
       ↔ (DEBUG = true ∧ (2 ^ 31 ≤ index mod 2 ^ 32)%Z)
         ∨ ToInt32 (GetDataProperty call_site_obj call_site_position_symbol)
           = None)
      ∧ (DEBUG = false →
         ∀ pos,
           ToInt32 (GetDataProperty call_site_obj call_site_position_symbol)
           = Some pos →
           (_ ← (if DEBUG then CHECK (index mod 2 ^ 32 <? 2 ^ 31)%Z
                 else Normal tt);
            pos ← deref
                    (ToInt32
                       (GetDataProperty call_site_obj call_site_position_symbol));
            Normal
              (mkCallSite None None pos
                 (Some (GetDataProperty call_site_obj call_site_wasm_obj_symbol))
                 (index mod 2 ^ 32)))
           = Normal
               (mkCallSite None None pos
                  (Some (GetDataProperty call_site_obj call_site_wasm_obj_symbol))
                  (index mod 2 ^ 32)))).
    { destruct DEBUG.
      - split; [| discriminate].
        destruct (Z.ltb_spec (index mod 2 ^ 32) (2 ^ 31)) as [Hlt | Hge];
          cbn [CHECK mbind Completion_bind].
        + destruct (ToInt32 _); simpl; split; try done.
          * intros [[_ Hbad] | Hbad]; [lia | discriminate].
          * by right.
        + split; [by left | done].
      - cbn [mbind Completion_bind]. split.
        + destruct (ToInt32 _); simpl; split; try done.
          * intros [[Hbad _] | Hbad]; discriminate.
          * by right.
        + by intros _ pos ->. }
    destruct (GetDataProperty call_site_obj call_site_function_symbol);
      try discriminate Hf; exact Hwasm.
Qed.

(** The three shapes of a constructed site. *)
Lemma CallSite_new_shape (call_site_obj : JSObject) (site : CallSite) :
  CallSite_new call_site_obj = Normal site →
  (∃ receiver f pos, site = mkCallSite (Some receiver) (Some f) pos None (2 ^ 32 - 1))
  ∨ (∃ wasm_obj index pos,
       site = mkCallSite None None pos (Some wasm_obj) index
       ∧ (0 ≤ index < 2 ^ 32)%Z
       ∧ (DEBUG = true → (index < 2 ^ 31)%Z))
  ∨ site = CallSite_members.
Proof.
  unfold CallSite_new, DCHECK. intros Hnew.
  destruct (GetDataProperty call_site_obj call_site_function_symbol)
    as [| | | | | | | | f | |].
  9: { destruct (ToInt32 _); [| discriminate]. injection Hnew as <-.
       left. by eexists _, _, _. }
  all: destruct (GetDataProperty call_site_obj
                   call_site_wasm_func_index_symbol) as [| | index | | | | | | | |].
  all: try (injection Hnew as <-; by right; right).
  all: pose proof (Z.mod_pos_bound index (2 ^ 32) ltac:(lia)) as Hbound.
  all: destruct DEBUG;
    [destruct (Z.ltb_spec (index mod 2 ^ 32) (2 ^ 31)) as [Hlt | Hge] |];
    cbn [CHECK mbind Completion_bind] in Hnew; try discriminate.
  all: destruct (ToInt32 _); try discriminate.
  all: injection Hnew as <-; right; left; eexists _, _, _.
  all: split; [done |]; split; [lia | done].
Qed.

(** ** CallSite: the accessors on valid frames *)

(** X3. On a JavaScript frame made by the constructor no accessor aborts:
    each one returns a value.  For GetMethodName this needs the conversion
    of a primitive receiver to an object to succeed. *)
Theorem JavaScript_frame_accessors_complete (call_site_obj : JSObject)
    (site : CallSite) :
  CallSite_new call_site_obj = Normal site →
  IsJavaScript site = true →
  completes (GetFileName site)
  ∧ completes (GetFunctionName site)
  ∧ completes (GetScriptNameOrSourceUrl site)
  ∧ completes (GetLineNumber site)
  ∧ completes (GetColumnNumber site)
  ∧ completes (IsNative site)
  ∧ completes (IsToplevel site)
  ∧ completes (IsEval site)
  ∧ completes (IsConstructor site)
  ∧ ((∀ receiver,
        receiver_ site = Some receiver →
        IsNull receiver || IsUndefined receiver || IsJSReceiver receiver = false →
        is_Some (Object_ToObject_primitive receiver)) →
     completes (GetMethodName site)).
Proof.
  intros Hnew Hjs.
  destruct (CallSite_new_shape _ _ Hnew)
    as [(receiver & f & pos & ->) | [(w & index & pos & -> & _ & _) | ->]];
    try discriminate Hjs.
  unfold completes.
  split; [| split; [| split; [| split; [| split; [| split; [| split;
    [| split; [| split]]]]]]]].
  - unfold GetFileName. simpl.
    destruct (SharedFunctionInfo.script (shared f)); eauto.
  - unfold GetFunctionName. simpl.
    destruct (negb _); eauto.
    destruct (SharedFunctionInfo.script (shared f)) as [| | | | | | | s | | |];
      eauto.
    destruct (Script.compilation_type s); eauto.
  - unfold GetScriptNameOrSourceUrl. simpl.
    destruct (SharedFunctionInfo.script (shared f)) as [| | | | | | | s | | |];
      eauto.
    destruct (IsString _); eauto.
  - unfold GetLineNumber. simpl. destruct (0 <=? pos)%Z; simpl; eauto.
    destruct (SharedFunctionInfo.script (shared f)); eauto.
  - unfold GetColumnNumber. simpl. destruct (0 <=? pos)%Z; simpl; eauto.
    destruct (SharedFunctionInfo.script (shared f)); eauto.
  - unfold IsNative. simpl.
    destruct (SharedFunctionInfo.script (shared f)) as [| | | | | | | s | | |];
      eauto.
    destruct (Script.type s); eauto.
  - unfold IsToplevel. simpl. eauto.
  - unfold IsEval. simpl.
    destruct (SharedFunctionInfo.script (shared f)) as [| | | | | | | s | | |];
      eauto.
    destruct (Script.compilation_type s); eauto.
  - unfold IsConstructor. simpl.
    destruct (Name_Equals receiver call_site_constructor_symbol); eauto.
    destruct (IsJSObject receiver) eqn:Hobj; simpl; eauto.
    destruct receiver; try discriminate Hobj; simpl; eauto.
  - intros Hprimitive. unfold GetMethodName. simpl.
    destruct (IsNull receiver || IsUndefined receiver) eqn:Hnull; eauto.
    unfold ToObject.
    assert (Hobject : ∀ o : Object,
      ∃ v, (if negb (IsJSObject o) then Normal Null
            else obj ← JSObject_cast o;
                 f0 ← deref (Some f);
                 match GetMethodName_function_name f0 obj with
                 | Some name => Normal (Str name)
                 | None => Normal (GetMethodName_walk f0 obj None)
                 end) = Normal v).
    { intros o. destruct (IsJSObject o) eqn:Hobj; simpl; eauto.
      destruct o; try discriminate Hobj; simpl;
        destruct (GetMethodName_function_name _ _); eauto. }
    destruct (IsJSReceiver receiver) eqn:Hrecv; simpl; [apply Hobject |].
    destruct (Hprimitive receiver eq_refl) as [o ->].
    { by rewrite Hnull, Hrecv. }
    simpl. apply Hobject.
Qed.

(** X4. On a wasm frame made by the constructor the file name, the script
    name and the method name are null, line and column are -1, IsNative,
    IsToplevel and IsEval are false, and the function name is the one of
    the wasm module for the function index, a uint32.  Only in a debug
    build is the index known not to be negative as an int: a release
    build passes on what a negative index wraps to. *)
Theorem wasm_frame_accessors (call_site_obj : JSObject) (site : CallSite) :
  CallSite_new call_site_obj = Normal site →
  IsWasm site = true →
  GetFileName site = Normal Null
  ∧ GetScriptNameOrSourceUrl site = Normal Null
  ∧ GetMethodName site = Normal Null
  ∧ GetLineNumber site = Normal (-1)%Z
  ∧ GetColumnNumber site = Normal (-1)%Z
  ∧ IsNative site = Normal false
  ∧ IsToplevel site = Normal false
  ∧ IsEval site = Normal false
  ∧ (0 ≤ wasm_func_index_ site < 2 ^ 32)%Z
  ∧ (DEBUG = true → (wasm_func_index_ site < 2 ^ 31)%Z)
  ∧ (∀ index,
       GetDataProperty call_site_obj call_site_wasm_func_index_symbol
       = Smi index →
       wasm_func_index_ site = (index mod 2 ^ 32)%Z)
  ∧ ∃ wasm_obj,
      wasm_obj_ site = Some wasm_obj
      ∧ GetFunctionName site
        = Normal (GetWasmFunctionNameOrNull wasm_obj (wasm_func_index_ site)).
Proof.
  intros Hnew Hwasm.
  assert (Hstored : ∀ index,
    GetDataProperty call_site_obj call_site_wasm_func_index_symbol = Smi index →
    wasm_func_index_ site = (index mod 2 ^ 32)%Z).
  { intros index Hindex. revert Hnew Hwasm. unfold CallSite_new.
    rewrite Hindex.
    destruct (GetDataProperty call_site_obj call_site_function_symbol).
    9: { destruct (ToInt32 _); [| discriminate]. by intros [= <-]. }
    all: destruct (DCHECK _); try discriminate.
    all: cbn [mbind Completion_bind].
    all: destruct (ToInt32 _); try discriminate.
    all: by intros [= <-]. }
  destruct (CallSite_new_shape _ _ Hnew)
    as [(receiver & f & pos & ->) | [(w & index & pos & -> & Hindex & Hdebug) | ->]];
    try discriminate Hwasm.
  unfold GetLineNumber, GetColumnNumber. simpl.
  rewrite !andb_false_r. repeat split; try done; try lia.
  by exists w.
Qed.

(** X5. On a wasm frame made by the constructor IsConstructor aborts: it
    compares the receiver with the constructor symbol before any test of
    the kind of frame, and a wasm frame has no receiver. *)
Theorem wasm_frame_IsConstructor_aborts (call_site_obj : JSObject)
    (site : CallSite) :
  CallSite_new call_site_obj = Normal site →
  IsWasm site = true →
  IsConstructor site = Abort.
Proof.
  intros Hnew Hwasm.
  destruct (CallSite_new_shape _ _ Hnew)
    as [(receiver & f & pos & ->) | [(w & index & pos & -> & Hindex & Hdebug) | ->]];
    try discriminate Hwasm.
  reflexivity.
Qed.

(** X6. GetScriptNameOrSourceUrl returns the source URL of the script of
    the function when that URL is a string, and what GetFileName returns
    in every other case. *)
Theorem GetScriptNameOrSourceUrl_GetFileName (site : CallSite) :
  (∀ f script,
     fun_ site = Some f →
     SharedFunctionInfo.script (shared f) = OScript script →
     IsString (Script.source_url script) = true →
     GetScriptNameOrSourceUrl site = Normal (Script.source_url script))
  ∧ ((∀ f script,
        fun_ site = Some f →
        SharedFunctionInfo.script (shared f) = OScript script →
        IsString (Script.source_url script) = false) →
     GetScriptNameOrSourceUrl site = GetFileName site).
Proof.
  unfold GetScriptNameOrSourceUrl, GetFileName, IsJavaScript. split.
  - intros f script -> Hscript Hurl. simpl. by rewrite Hscript, Hurl.
  - intros Hurl. destruct (fun_ site) as [f |]; simpl; [| reflexivity].
    destruct (SharedFunctionInfo.script (shared f)) as [| | | | | | | s | | |]
      eqn:Hscript; try reflexivity.
    by rewrite (Hurl f s eq_refl Hscript).
Qed.

(** X7. On a frame that is not a wasm frame, the function name is the name
    of the function when that is not empty; for a function without a name
    it is "eval" when IsEval holds of the frame and null when it does not.
    It is never the empty string. *)
Theorem GetFunctionName_IsEval (site : CallSite) (f : JSFunction) :
  wasm_obj_ site = None →
  fun_ site = Some f →
  (JSFunction_GetName f ≠ EmptyString →
   GetFunctionName site = Normal (Str (JSFunction_GetName f)))
  ∧ (JSFunction_GetName f = EmptyString →
     (IsEval site = Normal true ∧ GetFunctionName site = Normal eval_string)
     ∨ (IsEval site = Normal false ∧ GetFunctionName site = Normal Null))
  ∧ GetFunctionName site ≠ Normal (Str EmptyString).
Proof.
  intros Hwasm Hfun. unfold GetFunctionName, IsEval, IsWasm, IsJavaScript.
  rewrite Hwasm, Hfun. simpl.
  destruct (JSFunction_GetName f) as [| ch name] eqn:Hname; simpl.
  - split; [done |]. split; [| ].
    + intros _.
      destruct (SharedFunctionInfo.script (shared f))
        as [| | | | | | | s | | |]; try (by right).
      destruct (Script.compilation_type s); [by right | by left].
    + destruct (SharedFunctionInfo.script (shared f))
        as [| | | | | | | s | | |]; try discriminate.
      destruct (Script.compilation_type s); discriminate.
  - split; [done |]. split; [done | discriminate].
Qed.

(** ** CallSite: the method name *)

Lemma GetMethodName_of_object (site : CallSite) (f : JSFunction)
    (receiver : Object) (obj : JSObject) :
  fun_ site = Some f →
  receiver_ site = Some receiver →
  JSObject_cast receiver = Normal obj →
  GetMethodName site
  = Normal
      match GetMethodName_function_name f obj with
      | Some name => Str name
      | None => GetMethodName_walk f obj None
      end.
Proof.
  intros Hfun Hreceiver Hcast. unfold GetMethodName, IsJavaScript, ToObject.
  rewrite Hfun, Hreceiver. simpl.
  destruct receiver; try discriminate Hcast; simpl in Hcast;
    injection Hcast as <-; simpl;
    by destruct (GetMethodName_function_name f _).
Qed.

(** X8. A receiver that requires an access check has no method name: the
    lookup under the name of the function stops at the check, and so does
    the walk. *)
Theorem GetMethodName_access_check (site : CallSite) (f : JSFunction)
    (receiver : Object) (obj : JSObject) :
  fun_ site = Some f →
  receiver_ site = Some receiver →
  JSObject_cast receiver = Normal obj →
  IsAccessCheckNeeded obj = true →
  GetMethodName site = Normal Null.
Proof.
  intros Hfun Hreceiver Hcast Hcheck.
  rewrite (GetMethodName_of_object site f receiver obj Hfun Hreceiver Hcast).
  destruct obj as [i t check props proto]. simpl in Hcheck. subst check.
  unfold GetMethodName_function_name, CheckMethodName. simpl.
  by destruct (SharedFunctionInfo.name (shared f)).
Qed.

(** A binding found on the object itself is found by the lookup along the
    prototype chain. *)
Lemma CheckMethodName_own_chain (obj : JSObject) (name : Object)
    (f : JSFunction) :
  CheckMethodName obj name f OWN_SKIP_INTERCEPTOR = true →
  CheckMethodName obj name f PROTOTYPE_CHAIN_SKIP_INTERCEPTOR = true.
Proof.
  unfold CheckMethodName. destruct obj as [i t check props proto]. simpl.
  destruct check; [done |].
  by destruct (List.find _ props).
Qed.

Lemma substring_all (s : string) : String.substring 0 (String.length s) s = s.
Proof. induction s as [| ch s IH]; simpl; [reflexivity | by rewrite IH]. Qed.

(** X9. When the receiver itself binds the function under the name the
    function was declared with, or, for a function declared as "get p" or
    "set p", under p, that name is the method name, whatever other names
    the function is bound under. *)
Theorem GetMethodName_declared_name (site : CallSite) (f : JSFunction)
    (receiver : Object) (obj : JSObject) (name p : string) :
  fun_ site = Some f →
  receiver_ site = Some receiver →
  JSObject_cast receiver = Normal obj →
  SharedFunctionInfo.name (shared f) = Str name →
  (name = p ∧ String.prefix "get " p = false ∧ String.prefix "set " p = false)
  ∨ name = "get " +:+ p ∨ name = "set " +:+ p →
  CheckMethodName obj (Str p) f OWN_SKIP_INTERCEPTOR = true →
  GetMethodName site = Normal (Str p).
Proof.
  intros Hfun Hreceiver Hcast Hname Hdeclared Hbound.
  rewrite (GetMethodName_of_object site f receiver obj Hfun Hreceiver Hcast).
  unfold GetMethodName_function_name. rewrite Hname.
  assert (Hstripped :
    (if String.prefix "get " name || String.prefix "set " name
     then String.substring 4 (String.length name - 4) name else name) = p).
  { assert (Hnil : String.prefix EmptyString p = true) by by destruct p.
    destruct Hdeclared as [(-> & -> & ->) | [-> | ->]]; [reflexivity | |].
    - change ("get " +:+ p)
        with (String "g" (String "e" (String "t" (String " " p)))).
      cbn. by rewrite Hnil, Nat.sub_0_r, substring_all.
    - change ("set " +:+ p)
        with (String "s" (String "e" (String "t" (String " " p)))).
      cbn. by rewrite Hnil, Nat.sub_0_r, substring_all. }
  rewrite Hstripped. by rewrite (CheckMethodName_own_chain _ _ _ Hbound).
Qed.

Lemma method_matches_names (f : JSFunction) (obj : JSObject) :
  Forall (fun k => IsName k = true) (method_matches f obj).
Proof.
  induction obj as [i t check props proto IHobj IHfun]
    using prototype_chain_ind.
  cbn [method_matches]. destruct check; [constructor |].
  apply Forall_app. split.
  - apply List.Forall_forall. intros k Hk.
    apply List.filter_In in Hk as [_ Hk]. by apply andb_prop in Hk as [Hk _].
  - destruct proto as [| | | | | | | | [next sfi] | next |]; try constructor.
    + by eapply IHfun.
    + by apply IHobj.
Qed.

(** X10. Whatever the site, a method name that GetMethodName returns is
    null or a name (a string or a symbol). *)
Theorem GetMethodName_null_or_name (site : CallSite) (v : Object) :
  GetMethodName site = Normal v → v = Null ∨ IsName v = true.
Proof.
  unfold GetMethodName. destruct (IsJavaScript site); simpl;
    [| intros [= <-]; by left].
  destruct (receiver_ site) as [receiver |]; simpl; [| discriminate].
  destruct (IsNull receiver || IsUndefined receiver);
    [intros [= <-]; by left |].
  destruct (ToObject receiver) as [o | |]; simpl; try discriminate.
  destruct (IsJSObject o); simpl; [| intros [= <-]; by left].
  destruct (JSObject_cast o) as [obj | |]; simpl; try discriminate.
  destruct (fun_ site) as [f |]; simpl; [| discriminate].
  destruct (GetMethodName_function_name f obj); [intros [= <-]; by right |].
  intros [= <-]. rewrite GetMethodName_walk_accumulate, accumulate_None.
  pose proof (method_matches_names f obj) as Hnames.
  destruct (method_matches f obj) as [| name [| ? ?]]; try by left.
  right. by inversion Hnames.
Qed.

(** X11. A frame whose receiver is null or undefined is a toplevel frame,
    is not a constructor call and has no method name. *)
Theorem toplevel_frame (site : CallSite) (f : JSFunction) (receiver : Object) :
  wasm_obj_ site = None →
  fun_ site = Some f →
  receiver_ site = Some receiver →
  IsNull receiver || IsUndefined receiver = true →
  IsToplevel site = Normal true
  ∧ IsConstructor site = Normal false
  ∧ GetMethodName site = Normal Null.
Proof.
  intros Hwasm Hfun Hreceiver Hnull.
  unfold IsToplevel, IsConstructor, GetMethodName, IsWasm, IsJavaScript.
  rewrite Hwasm, Hfun, Hreceiver. simpl. rewrite Hnull.
  destruct receiver; try discriminate Hnull; by repeat split.
Qed.

(** ** MessageTemplate: bounds, escapes and unused arguments *)

(** The scan aborts at the first placeholder for which no argument is
    left. *)
Lemma FormatMessage_loop_out_of_arguments (args : list string)
    (pieces : list Piece) :
  ∀ (i : nat) (builder : string),
    well_formed pieces = true →
    i ≤ length args →
    length args < i + placeholders pieces →
    FormatMessage_loop args (template_of pieces) i builder = Abort.
Proof.
  induction pieces as [| piece pieces IH]; intros i builder Hwf Hi Hargs.
  - simpl in Hargs. lia.
  - destruct piece as [ch | |].
    + simpl in Hwf. apply andb_prop in Hwf as [Hch Hwf].
      apply andb_prop in Hch as [Hpercent Hnul].
      apply negb_true_iff in Hpercent, Hnul.
      simpl. rewrite Hnul, Hpercent. by apply IH.
    + simpl in Hwf. simpl. by apply IH.
    + apply well_formed_after_placeholder in Hwf as [Hwf Hnext].
      simpl in Hargs.
      assert (Hstep :
        FormatMessage_loop args (template_of (Placeholder :: pieces)) i builder
        = arg ← args_at args i;
          FormatMessage_loop args (template_of pieces) (S i) (builder +:+ arg)).
      { simpl. destruct Hnext as [-> | (ch & rest & -> & Hch)];
          [reflexivity | by rewrite Hch]. }
      rewrite Hstep. unfold args_at.
      destruct (args !! i) as [arg |] eqn:Harg; [| reflexivity].
      apply lookup_lt_Some in Harg.
      simpl. apply IH; [done | lia | lia].
Qed.

(** X12. A template with more than three placeholders cannot be formatted:
    the scan runs out of arguments and aborts, whatever the arguments. *)
Theorem FormatMessage_too_many_placeholders
    (template_index : Z) (pieces : list Piece) (arg0 arg1 arg2 : string) :
  TemplateString template_index = Some (template_of pieces) →
  well_formed pieces = true →
  3 < placeholders pieces →
  FormatMessage template_index arg0 arg1 arg2 = Abort.
Proof.
  intros Htemplate Hwf Hcount. unfold FormatMessage. rewrite Htemplate.
  apply FormatMessage_loop_out_of_arguments; [done | simpl; lia | simpl; lia].
Qed.

Lemma FormatMessage_loop_escaped (args : list string) (text : string) :
  ∀ (i : nat) (builder : string),
    has_nul text = false →
    FormatMessage_loop args (escape_percent text) i builder
    = Normal (builder +:+ text).
Proof.
  induction text as [| ch text IH]; intros i builder Hnul.
  - simpl. by rewrite string_app_nil_r.
  - simpl in Hnul. apply orb_false_iff in Hnul as [Hch Hnul].
    cbn [escape_percent]. destruct (Ascii.eqb ch "%") eqn:Hpercent.
    + apply Ascii.eqb_eq in Hpercent as ->.
      cbn [FormatMessage_loop]. simpl. rewrite IH by done.
      by rewrite string_app_assoc.
    + cbn [FormatMessage_loop]. rewrite Hch, Hpercent, IH by done.
      by rewrite string_app_assoc.
Qed.

(** X13. A template that is a text in which every percent sign is doubled
    formats to that text, and consumes no argument. *)
Theorem FormatMessage_escaped_text
    (template_index : Z) (text arg0 arg1 arg2 : string) :
  TemplateString template_index = Some (escape_percent text) →
  has_nul text = false →
  FormatMessage template_index arg0 arg1 arg2 = Normal text.
Proof.
  intros Htemplate Hnul. unfold FormatMessage. rewrite Htemplate.
  by rewrite FormatMessage_loop_escaped.
Qed.

Lemma rendering_used_arguments (pieces : list Piece) :
  ∀ args args' : list string,
    take (placeholders pieces) args = take (placeholders pieces) args' →
    rendering pieces args = rendering pieces args'.
Proof.
  induction pieces as [| piece pieces IH]; intros args args' Hargs;
    [reflexivity |].
  destruct piece as [ch | |]; simpl in *.
  - f_equal. by apply IH.
  - f_equal. by apply IH.
  - destruct args as [| a args], args' as [| a' args']; try discriminate Hargs.
    + reflexivity.
    + injection Hargs as -> Hargs. f_equal. by apply IH.
Qed.

(** X14. The arguments beyond the placeholders of a template play no part:
    two calls that agree on as many leading arguments as the template has
    placeholders return the same text. *)
Theorem FormatMessage_ignores_unused_arguments
    (template_index : Z) (pieces : list Piece)
    (arg0 arg1 arg2 arg0' arg1' arg2' : string) :
  TemplateString template_index = Some (template_of pieces) →
  well_formed pieces = true →
  placeholders pieces ≤ 3 →
  take (placeholders pieces) [arg0; arg1; arg2]
  = take (placeholders pieces) [arg0'; arg1'; arg2'] →
  FormatMessage template_index arg0 arg1 arg2
  = FormatMessage template_index arg0' arg1' arg2'.
Proof.
  intros Htemplate Hwf Hcount Hargs. unfold FormatMessage. rewrite Htemplate.
  rewrite !FormatMessage_loop_rendering by (done || (simpl; lia)).
  simpl. f_equal. f_equal. by apply rendering_used_arguments.
Qed.

(** X15. The overload for one dynamic value always returns a string, the
    one of [FormatMessageObject], and never an empty handle; but it does
    not clear what the inner formatting throws.  For a template id that is
    not registered and a value that is, or converts to, a string it
    returns "<error>" and leaves the isolate as the throw of the illegal
    operation left it, with that exception still pending.  When the
    conversion fails it returns "<error>" before the id is looked up, and
    with a registered id nothing is thrown: the isolate is then the one
    that the conversion, if any, left. *)
Theorem FormatMessageObject_leaves_exception_pending
    (ThrowIllegalOperation : Isolate → Isolate)
    (TryCall_isolate : Object → Isolate → Isolate)
    (template_index : Z) (arg : Object) (iso : Isolate) :
  let formatted :=
    FormatMessageObject_on ThrowIllegalOperation TryCall_isolate
      template_index arg iso in
  let converted := if IsString arg then iso else TryCall_isolate arg iso in
  formatted.1 = FormatMessageObject template_index arg
  ∧ (∀ e, formatted.1 ≠ Throw e)
  ∧ (TemplateString template_index = None →
     (IsString arg = true
      ∨ ∃ s, TryCall_no_side_effects_to_string_fun arg = Some (Str s)) →
     formatted = (Normal "<error>", ThrowIllegalOperation converted))
  ∧ (IsString arg = false →
     (∀ s, TryCall_no_side_effects_to_string_fun arg ≠ Some (Str s)) →
     formatted = (Normal "<error>", converted))
  ∧ (is_Some (TemplateString template_index) → formatted.2 = converted).
Proof.
  intros formatted converted. subst formatted converted.
  unfold FormatMessageObject_on, FormatMessageObject, FormatMessage_on,
    FormatMessage.
  assert (Hloop : ∀ c : Completion string, ∀ e,
    match c with
    | Normal r => Normal r
    | Throw _ => Normal "<error>"
    | Abort => Abort
    end ≠ Throw e) by (by intros []).
  destruct arg as [| | | s | | | | | | |]; cbn [IsString].
  4: { destruct (TemplateString template_index) as [template |]; cbn [fst snd].
       - split; [done |]. split; [apply Hloop |]. split; [done |].
         split; [done |]. done.
       - split; [done |]. split; [done |]. split; [done |].
         split; [done |]. by intros [? ?]. }
  all: destruct (TryCall_no_side_effects_to_string_fun _)
         as [[| | | r | | | | | | |] |] eqn:Hcall.
  all: destruct (TemplateString template_index) as [template |]; cbn [fst snd].
  all: split; [done |].
  all: split; [done || apply Hloop |].
  all: split; [try done; by intros _ [[=] | [s' [=]]] |].
  all: split; [try done; by intros _ Hno; destruct (Hno r) |].
  all: try done; by intros [? ?].
Qed.

(** X16. For a string value and a template with at most three placeholders
    the overload for one dynamic value puts the value at the first
    placeholder and the empty string at the others. *)
Theorem FormatMessageObject_single_argument
    (template_index : Z) (pieces : list Piece) (s : string) :
  TemplateString template_index = Some (template_of pieces) →
  well_formed pieces = true →
  placeholders pieces ≤ 3 →
  FormatMessageObject template_index (Str s)
  = Normal (rendering pieces [s; EmptyString; EmptyString]).
Proof.
  intros Htemplate Hwf Hcount. unfold FormatMessageObject, FormatMessage.
  rewrite Htemplate.
  by rewrite FormatMessage_loop_rendering by (done || (simpl; lia)).
Qed.

(** ** MessageHandler *)

Lemma ReportMessage_listeners_removed (message : N) (exception : Object)
    (iso : Isolate) (n : nat) :
  ∀ k,
    (∀ i, k ≤ i < k + n → message_listeners iso !! i = Some None) →
    ReportMessage_listeners message exception (seq k n) iso = Normal (iso, []).
Proof.
  induction n as [| n IH]; intros k Hslots; [reflexivity |].
  cbn [seq ReportMessage_listeners]. rewrite (Hslots k) by lia.
  cbn [deref mbind Completion_bind]. apply IH. intros i Hi. apply Hslots. lia.
Qed.

(** X17. When every listener of a registry that is not empty was removed,
    reporting calls no callback and prints nothing: the default reporter
    runs only for a registry of length zero. *)
Theorem ReportMessage_removed_listeners (loc : option MessageLocation)
    (message : N) (iso : Isolate) (m : JSMessageObject) :
  messages iso !! message = Some m →
  message_listeners iso ≠ [] →
  Forall (fun slot => slot = None) (message_listeners iso) →
  ∃ iso',
    ReportMessage loc message iso = Normal (iso', [])
    ∧ stdout iso' = stdout iso
    ∧ scheduled_exception iso' = scheduled_exception iso
    ∧ pending_exception iso' = pending_exception iso.
Proof.
  intros Hm Hregistry Hremoved.
  destruct (ReportMessage_found loc message iso m Hm) as [_ ->].
  destruct (message_listeners iso) as [| slot slots] eqn:Hslots; [done |].
  cbn [length Nat.eqb]. set (iso1 := mkIsolate _ _ _ _ _ _).
  rewrite (ReportMessage_listeners_removed _ _ iso1 (S (length slots)) 0).
  - cbn [mbind Completion_bind]. eexists. by split.
  - intros i Hi. subst iso1. cbn [message_listeners].
    destruct (lookup_lt_is_Some_2 (slot :: slots) i) as [x Hx];
      [simpl; lia |].
    rewrite Hx. f_equal.
    by apply (proj1 (Forall_lookup _ _) Hremoved i x).
Qed.

(** X18. [ReportMessage] changes the message objects in one way only, the
    callbacks leaving them alone: when the argument of the reported
    message is an object it becomes the text of [StringifyArgument]; an
    argument that is not an object stays, and so does every other message
    object. *)
Theorem ReportMessage_normalizes_argument (loc : option MessageLocation)
    (message : N) (iso iso' : Isolate) (m : JSMessageObject)
    (deliveries : list Delivery) :
  (∀ address msg data iso,
     messages (MessageCallback address msg data iso) = messages iso) →
  messages iso !! message = Some m →
  ReportMessage loc message iso = Normal (iso', deliveries) →
  messages iso' !! message
  = Some (if IsJSObject (argument m)
          then set_argument (StringifyArgument (argument m)) m else m)
  ∧ ∀ other, other ≠ message → messages iso' !! other = messages iso !! other.
Proof.
  intros Hcallbacks Hm.
  destruct (ReportMessage_found loc message iso m Hm) as [Hm' ->].
  set (iso1 := mkIsolate _ _ _ _ _ _) in *.
  assert (Hother : ∀ other, other ≠ message →
            messages iso1 !! other = messages iso !! other).
  { intros other Hne. subst iso1. cbn [messages].
    destruct (IsJSObject (argument m)); [| done].
    by rewrite lookup_insert_ne. }
  intros Hreport.
  assert (Hsame : messages iso' = messages iso1).
  { destruct (length (message_listeners iso) =? 0)%nat.
    - destruct (DefaultMessageReport loc _ iso1) as [iso2 | |] eqn:Hdefault;
        try discriminate.
      cbn [mbind Completion_bind] in Hreport. injection Hreport as <- _.
      simpl. by rewrite messages_clear_scheduled,
        (messages_DefaultMessageReport _ _ _ _ Hdefault).
    - destruct (ReportMessage_listeners _ _ _ iso1) as [[iso2 ds] | |]
        eqn:Hloop; try discriminate.
      cbn [mbind Completion_bind] in Hreport. injection Hreport as <- _.
      simpl.
      by rewrite (ReportMessage_listeners_messages _ _ Hcallbacks _ _ _ _ Hloop). }
  rewrite Hsame. split; [exact Hm' | exact Hother].
Qed.

Lemma StringifyArgument_string (argument : Object) :
  IsJSError argument = false → IsJSObject (StringifyArgument argument) = false.
Proof.
  intros Herror. unfold StringifyArgument. rewrite Herror.
  by destruct (Object_ToString argument).
Qed.

(** X19. The normalization happens once: after a report of a message
    whose argument is not an error object, the argument is not an object
    any more, and a further report leaves every message object as it
    is. *)
Theorem ReportMessage_normalizes_once (loc loc' : option MessageLocation)
    (message : N) (iso iso' iso'' : Isolate) (m : JSMessageObject)
    (deliveries deliveries' : list Delivery) :
  (∀ address msg data iso,
     messages (MessageCallback address msg data iso) = messages iso) →
  messages iso !! message = Some m →
  IsJSError (argument m) = false →
  ReportMessage loc message iso = Normal (iso', deliveries) →
  ReportMessage loc' message iso' = Normal (iso'', deliveries') →
  (∃ m', messages iso' !! message = Some m' ∧ IsJSObject (argument m') = false)
  ∧ messages iso'' = messages iso'.
Proof.
  intros Hcallbacks Hm Herror Hfirst Hsecond.
  destruct (ReportMessage_normalizes_argument loc message iso iso' m deliveries
              Hcallbacks Hm Hfirst) as [Hm' _].
  set (m' := if IsJSObject (argument m)
             then set_argument (StringifyArgument (argument m)) m else m) in *.
  assert (Hplain : IsJSObject (argument m') = false).
  { subst m'. destruct (IsJSObject (argument m)) eqn:Hobject; [| done].
    by apply StringifyArgument_string. }
  split; [by exists m' |].
  apply map_eq. intros other.
  destruct (ReportMessage_normalizes_argument loc' message iso' iso'' m'
              deliveries' Hcallbacks Hm' Hsecond) as [Hsame Hother].
  destruct (decide (other = message)) as [-> | Hne]; [| by apply Hother].
  by rewrite Hsame, Hplain, Hm'.
Qed.

(** X20. Whatever the callbacks do, also to the pending exception, a
    report that returns leaves pending the exception that was pending
    when it was entered. *)
Theorem ReportMessage_restores_pending_exception
    (loc : option MessageLocation) (message : N) (iso iso' : Isolate)
    (deliveries : list Delivery) :
  ReportMessage loc message iso = Normal (iso', deliveries) →
  pending_exception iso' = pending_exception iso.
Proof.
  destruct (messages iso !! message) as [m |] eqn:Hm.
  - destruct (ReportMessage_found loc message iso m Hm) as [_ ->].
    match goal with
    | |- (?dispatch ≫= _) = _ → _ =>
        destruct dispatch as [[iso2 ds] | |]; try discriminate
    end.
    cbn [mbind Completion_bind]. by intros [= <- _].
  - unfold ReportMessage. simpl. rewrite Hm. discriminate.
Qed.

(** X21. With a registry that is not empty the location plays no part in
    the report. *)
Theorem ReportMessage_listeners_ignore_location
    (loc loc' : option MessageLocation) (message : N) (iso : Isolate) :
  message_listeners iso ≠ [] →
  ReportMessage loc message iso = ReportMessage loc' message iso.
Proof.
  intros Hregistry.
  destruct (messages iso !! message) as [m |] eqn:Hm.
  - destruct (ReportMessage_found loc message iso m Hm) as [_ ->].
    destruct (ReportMessage_found loc' message iso m Hm) as [_ ->].
    by destruct (message_listeners iso).
  - unfold ReportMessage. simpl. by rewrite Hm.
Qed.

(** X22. The default reporter dereferences the script of a location that
    it is given: with an empty registry, the report of a message at a
    location without a script (the location of the default constructor)
    aborts. *)
Theorem ReportMessage_location_without_script (loc : MessageLocation)
    (message : N) (iso : Isolate) (m : JSMessageObject) (text : string) :
  message_listeners iso = [] →
  messages iso !! message = Some m →
  GetLocalizedMessage
    (if IsJSObject (argument m)
     then set_argument (StringifyArgument (argument m)) m else m)
  = Normal text →
  script_ loc = None →
  ReportMessage (Some loc) message iso = Abort.
Proof.
  intros Hregistry Hm Htext Hscript.
  destruct (ReportMessage_found (Some loc) message iso m Hm) as [_ ->].
  rewrite Hregistry. cbn [length Nat.eqb].
  unfold DefaultMessageReport. by rewrite Htext, Hscript.
Qed.

(** X23. A message object made for a location, then reported at that
    location through the default reporter, is printed with the name of
    the script of the location, the start position recorded in the
    message object and the text of its template and argument; without a
    location the message object records the positions -1. *)
Theorem MakeMessageObject_reported (Script_GetWrapper : Script → Object)
    (empty_script : Script) (template : Z) (loc : MessageLocation)
    (a text : string) (frames : Handle Object) (message : N) (iso : Isolate)
    (m : JSMessageObject) :
  MakeMessageObject Script_GetWrapper empty_script template (Some loc) (Str a)
    frames = Normal m →
  messages iso !! message = Some m →
  message_listeners iso = [] →
  FormatMessageObject template (Str a) = Normal text →
  (∃ source iso',
     script_ loc = Some source
     ∧ script m = Script_GetWrapper source
     ∧ ReportMessage (Some loc) message iso = Normal (iso', [])
     ∧ stdout iso'
       = stdout iso
         ++ [(match Script.name source with
              | Str data => ToCString data
              | _ => "<unknown>"
              end)
             +:+ ":" +:+ format_int (start_position m) +:+ ": "
             +:+ ToCString text +:+ newline])
  ∧ ∃ m0,
      MakeMessageObject Script_GetWrapper empty_script template None (Str a)
        frames = Normal m0
      ∧ start_position m0 = (-1)%Z ∧ end_position m0 = (-1)%Z
      ∧ script m0 = Script_GetWrapper empty_script
      ∧ GetMessage m0 = GetMessage m.
Proof.
  intros Hmade Hm Hregistry Htext. unfold MakeMessageObject in *.
  destruct (script_ loc) as [source |] eqn:Hscript; [| discriminate].
  cbn [deref mbind Completion_bind] in Hmade. injection Hmade as <-.
  split.
  2: { eexists. split; [reflexivity |]. repeat split. }
  exists source.
  destruct (ReportMessage_found (Some loc) message iso _ Hm) as [_ ->].
  rewrite Hregistry. cbn [length Nat.eqb argument IsJSObject].
  unfold DefaultMessageReport, GetLocalizedMessage, GetMessage.
  cbn [type argument]. rewrite Htext, Hscript.
  cbn [deref mbind Completion_bind].
  eexists. split; [reflexivity |]. split; [reflexivity |].
  split; [reflexivity |].
  simpl. by rewrite stdout_clear_scheduled.
Qed.

End FurtherProperties.

(** ** ConstructError: what is not consulted *)

(** X24. With the detailed trace suppressed the construction does not
    depend on the capture of the detailed trace, and with an undefined
    message it does not depend on the conversion to string. *)
Theorem ConstructError_not_consulted (rt : Runtime) (target : JSFunction)
    (new_target message : Object) (mode : FrameSkipMode)
    (suppress_detailed_trace : bool)
    (capture : JSObject → MaybeHandle JSObject)
    (to_string : Object → MaybeHandle string) :
  (suppress_detailed_trace = true →
   @ConstructError (with_detailed_capture rt capture) target new_target message
     mode suppress_detailed_trace
   = @ConstructError rt target new_target message mode suppress_detailed_trace)
  ∧ (message = Undefined →
     @ConstructError (with_ToString rt to_string) target new_target message
       mode suppress_detailed_trace
     = @ConstructError rt target new_target message mode
         suppress_detailed_trace).
Proof.
  split.
  - intros ->. reflexivity.
  - intros ->. reflexivity.
Qed.

(** * The further properties at concrete inputs *)

Lemma CallSite_new_classifies_witness :
  IsJavaScript wasm_site = false ∧ IsWasm wasm_site = true
  ∧ IsJavaScript (example_site example_function Undefined) = true
  ∧ IsWasm (example_site example_function Undefined) = false.
Proof.
  destruct (@CallSite_new_classifies example_runtime wasm_call_site_object
              wasm_site eq_refl)
    as (Hjs & Hwasm & _).
  destruct (@CallSite_new_classifies example_runtime
              (call_site_object example_function Undefined 15)
              (example_site example_function Undefined) eq_refl)
    as (Hjs' & Hwasm' & _).
  split; [exact Hjs |]. split; [exact Hwasm |]. split; [exact Hjs' | exact Hwasm'].
Defined.

Lemma CallSite_new_aborts_witness :
  @CallSite_new example_runtime positionless_call_site_object = Abort
  ∧ @CallSite_new example_runtime negative_wasm_call_site_object = Abort
  ∧ @CallSite_new release_runtime negative_wasm_call_site_object
    = Normal negative_wasm_site.
Proof.
  destruct (@CallSite_new_aborts example_runtime positionless_call_site_object)
    as (_ & Hfunction & _).
  destruct (@CallSite_new_aborts example_runtime negative_wasm_call_site_object)
    as (_ & _ & Hdebug).
  destruct (@CallSite_new_aborts release_runtime negative_wasm_call_site_object)
    as (_ & _ & Hrelease).
  split; [apply (Hfunction eq_refl); reflexivity |].
  split.
  - apply (proj1 (Hdebug (-1)%Z eq_refl eq_refl)). left. by split.
  - exact (proj2 (Hrelease (-1)%Z eq_refl eq_refl) eq_refl 7%Z eq_refl).
Defined.

Lemma JavaScript_frame_accessors_complete_witness :
  completes (IsToplevel (example_site example_function Undefined))
  ∧ completes (IsConstructor (example_site example_function Undefined))
  ∧ completes
      (@GetMethodName example_runtime (example_site example_function Undefined)).
Proof.
  destruct (@JavaScript_frame_accessors_complete example_runtime
              (call_site_object example_function Undefined 15)
              (example_site example_function Undefined) eq_refl eq_refl)
    as (_ & _ & _ & _ & _ & _ & Htoplevel & _ & Hconstructor & Hmethod).
  split; [exact Htoplevel |]. split; [exact Hconstructor |].
  apply Hmethod. intros receiver [= <-]. discriminate.
Defined.

Lemma wasm_frame_accessors_witness :
  GetFileName wasm_site = Normal Null
  ∧ GetLineNumber wasm_site = Normal (-1)%Z
  ∧ IsToplevel wasm_site = Normal false
  ∧ @GetFunctionName example_runtime wasm_site = Normal Null
  ∧ wasm_func_index_ negative_wasm_site = 4294967295%Z
  ∧ @GetFunctionName release_runtime negative_wasm_site
    = Normal
        (@GetWasmFunctionNameOrNull release_runtime (OJSObject wasm_object)
           4294967295).
Proof.
  destruct (@wasm_frame_accessors example_runtime wasm_call_site_object
              wasm_site eq_refl eq_refl)
    as (Hfile & _ & _ & Hline & _ & _ & Htoplevel & _ & _ & _ & _ & w & Hw
        & Hname).
  destruct (@wasm_frame_accessors release_runtime negative_wasm_call_site_object
              negative_wasm_site eq_refl eq_refl)
    as (_ & _ & _ & _ & _ & _ & _ & _ & _ & _ & Hstored & w' & Hw' & Hname').
  injection Hw as <-. injection Hw' as <-.
  split; [exact Hfile |]. split; [exact Hline |].
  split; [exact Htoplevel |]. split; [exact Hname |].
  split; [exact (Hstored (-1)%Z eq_refl) | exact Hname'].
Defined.

Lemma wasm_frame_IsConstructor_aborts_witness :
  IsConstructor wasm_site = Abort.
Proof.
  exact (@wasm_frame_IsConstructor_aborts example_runtime wasm_call_site_object
           wasm_site eq_refl eq_refl).
Defined.

Lemma GetScriptNameOrSourceUrl_GetFileName_witness :
  GetScriptNameOrSourceUrl (example_site url_function Undefined)
  = Normal (Str "http://host/b.js")
  ∧ GetFileName (example_site url_function Undefined) = Normal (Str "b.js")
  ∧ GetScriptNameOrSourceUrl (example_site example_function Undefined)
    = GetFileName (example_site example_function Undefined).
Proof.
  split; [| split].
  - exact (proj1 (GetScriptNameOrSourceUrl_GetFileName
                    (example_site url_function Undefined))
             url_function url_script eq_refl eq_refl eq_refl).
  - reflexivity.
  - apply (proj2 (GetScriptNameOrSourceUrl_GetFileName
                    (example_site example_function Undefined))).
    by intros f located [= <-] [= <-].
Defined.

Lemma GetFunctionName_IsEval_witness :
  @GetFunctionName example_runtime (example_site example_function Undefined)
  = Normal (Str "greet")
  ∧ IsEval (example_site url_function Undefined) = Normal true
  ∧ @GetFunctionName example_runtime (example_site url_function Undefined)
    = Normal eval_string.
Proof.
  destruct (@GetFunctionName_IsEval example_runtime
              (example_site example_function Undefined) example_function
              eq_refl eq_refl) as (Hnamed & _).
  destruct (@GetFunctionName_IsEval example_runtime
              (example_site url_function Undefined) url_function
              eq_refl eq_refl) as (_ & Hanonymous & _).
  split; [apply Hnamed; discriminate |].
  destruct (Hanonymous eq_refl) as [[Heval Hname] | [Heval _]];
    [by split | discriminate Heval].
Defined.

Lemma GetMethodName_access_check_witness :
  @GetMethodName example_runtime
    (example_site example_function (OJSObject guarded_receiver))
  = Normal Null.
Proof.
  exact (@GetMethodName_access_check example_runtime
           (example_site example_function (OJSObject guarded_receiver))
           example_function (OJSObject guarded_receiver) guarded_receiver
           eq_refl eq_refl eq_refl eq_refl).
Defined.

Lemma GetMethodName_declared_name_witness :
  @GetMethodName example_runtime
    (example_site size_getter (OJSObject with_size_accessor))
  = Normal (Str "size").
Proof.
  apply (@GetMethodName_declared_name example_runtime
           (example_site size_getter (OJSObject with_size_accessor))
           size_getter (OJSObject with_size_accessor) with_size_accessor
           "get size" "size" eq_refl eq_refl eq_refl eq_refl).
  - right. by left.
  - reflexivity.
Defined.

Lemma GetMethodName_null_or_name_witness :
  Str "greet" = Null ∨ IsName (Str "greet") = true.
Proof.
  exact (@GetMethodName_null_or_name example_runtime
           (example_site anonymous_function
              (OJSObject (one_name anonymous_function)))
           (Str "greet") eq_refl).
Defined.

Lemma toplevel_frame_witness :
  IsToplevel (example_site example_function Undefined) = Normal true
  ∧ IsConstructor (example_site example_function Undefined) = Normal false
  ∧ @GetMethodName example_runtime (example_site example_function Undefined)
    = Normal Null.
Proof.
  exact (@toplevel_frame example_runtime
           (example_site example_function Undefined) example_function
           Undefined eq_refl eq_refl eq_refl eq_refl).
Defined.

Lemma FormatMessage_too_many_placeholders_witness :
  @FormatMessage crowded_runtime 0 "a" "b" "c" = Abort.
Proof.
  apply (@FormatMessage_too_many_placeholders crowded_runtime 0
           crowded_pieces "a" "b" "c"); [reflexivity | reflexivity |].
  simpl. lia.
Defined.

Lemma FormatMessage_escaped_text_witness :
  @FormatMessage crowded_runtime 1 "a" "b" "c" = Normal "100% sure".
Proof.
  exact (@FormatMessage_escaped_text crowded_runtime 1 "100% sure" "a" "b" "c"
           eq_refl eq_refl).
Defined.

Lemma FormatMessage_ignores_unused_arguments_witness :
  @FormatMessage example_runtime 1 "boom" "x" "y"
  = @FormatMessage example_runtime 1 "boom" "u" "v".
Proof.
  apply (@FormatMessage_ignores_unused_arguments example_runtime 1
           uncaught_pieces "boom" "x" "y" "boom" "u" "v");
    [reflexivity | reflexivity | | reflexivity].
  simpl. lia.
Defined.

Lemma FormatMessageObject_leaves_exception_pending_witness :
  @FormatMessageObject_on example_runtime throw_illegal_access
    (fun _ iso => iso) 9 (Str "boom") (example_isolate [] Undefined)
  = (Normal "<error>",
     mkIsolate (Some (Str "illegal_access")) None true []
       {[ 7%N := example_message Undefined ]} []).
Proof.
  destruct (@FormatMessageObject_leaves_exception_pending example_runtime
              throw_illegal_access (fun _ iso => iso) 9 (Str "boom")
              (example_isolate [] Undefined))
    as (_ & _ & Hpending & _).
  exact (Hpending eq_refl (or_introl eq_refl)).
Defined.

Lemma FormatMessageObject_single_argument_witness :
  @FormatMessageObject example_runtime 3 (Str "a") = Normal "a then  then ".
Proof.
  apply (@FormatMessageObject_single_argument example_runtime 3
           sequence_pieces "a"); [reflexivity | reflexivity |].
  simpl. lia.
Defined.

Lemma ReportMessage_removed_listeners_witness :
  ∃ iso',
    @ReportMessage example_runtime (Some example_location) 7
      (example_isolate removed_listeners (Str "boom")) = Normal (iso', [])
    ∧ stdout iso' = []
    ∧ scheduled_exception iso' = None
    ∧ pending_exception iso' = Some (Str "pending").
Proof.
  apply (@ReportMessage_removed_listeners example_runtime
           (Some example_location) 7
           (example_isolate removed_listeners (Str "boom"))
           (example_message (Str "boom")) eq_refl).
  - discriminate.
  - repeat constructor.
Defined.

Lemma ReportMessage_normalizes_argument_witness :
  ∃ iso' deliveries,
    @ReportMessage example_runtime None 7
      (example_isolate example_listeners (OJSObject convertible_object))
    = Normal (iso', deliveries)
    ∧ messages iso' !! 7%N = Some (example_message (Str "boom")).
Proof.
  eexists _, _. split; [reflexivity |].
  apply (@ReportMessage_normalizes_argument example_runtime None 7
           (example_isolate example_listeners (OJSObject convertible_object))
           _ (example_message (OJSObject convertible_object)) _
           example_callback_messages eq_refl eq_refl).
Defined.

Lemma ReportMessage_normalizes_once_witness :
  ∃ iso' deliveries iso'' deliveries',
    @ReportMessage example_runtime None 7
      (example_isolate example_listeners (OJSObject convertible_object))
    = Normal (iso', deliveries)
    ∧ @ReportMessage example_runtime None 7 iso' = Normal (iso'', deliveries')
    ∧ messages iso'' = messages iso'.
Proof.
  eexists _, _, _, _. split; [reflexivity |]. split; [reflexivity |].
  apply (@ReportMessage_normalizes_once example_runtime None None 7
           (example_isolate example_listeners (OJSObject convertible_object))
           _ _ (example_message (OJSObject convertible_object)) _ _
           example_callback_messages eq_refl eq_refl eq_refl eq_refl).
Defined.

Lemma ReportMessage_restores_pending_exception_witness :
  ∃ iso' deliveries,
    @ReportMessage example_runtime None 7
      (example_isolate example_listeners (Str "boom"))
    = Normal (iso', deliveries)
    ∧ pending_exception iso' = Some (Str "pending").
Proof.
  eexists _, _. split; [reflexivity |].
  apply (@ReportMessage_restores_pending_exception example_runtime None 7
           (example_isolate example_listeners (Str "boom")) _ _ eq_refl).
Defined.

Lemma ReportMessage_listeners_ignore_location_witness :
  @ReportMessage example_runtime (Some MessageLocation_default) 7
    (example_isolate example_listeners (Str "boom"))
  = @ReportMessage example_runtime None 7
      (example_isolate example_listeners (Str "boom")).
Proof.
  apply (@ReportMessage_listeners_ignore_location example_runtime
           (Some MessageLocation_default) None 7
           (example_isolate example_listeners (Str "boom"))).
  discriminate.
Defined.

Lemma ReportMessage_location_without_script_witness :
  @ReportMessage example_runtime (Some MessageLocation_default) 7
    (example_isolate [] (Str "boom")) = Abort.
Proof.
  exact (@ReportMessage_location_without_script example_runtime
           MessageLocation_default 7 (example_isolate [] (Str "boom"))
           (example_message (Str "boom")) "Uncaught boom"
           eq_refl eq_refl eq_refl eq_refl).
Defined.

Lemma MakeMessageObject_reported_witness :
  ∃ iso',
    @ReportMessage example_runtime (Some example_location) 7
      (example_isolate [] (Str "boom")) = Normal (iso', [])
    ∧ stdout iso' = ["a.js:15: Uncaught boom" +:+ newline].
Proof.
  destruct (@MakeMessageObject_reported example_runtime OScript example_script
              1 example_location "boom" "Uncaught boom" None 7
              (example_isolate [] (Str "boom")) (example_message (Str "boom"))
              eq_refl eq_refl eq_refl eq_refl)
    as [(source & iso' & Hsource & _ & Hreport & Hstdout) _].
  injection Hsource as <-.
  exists iso'. split; [exact Hreport | exact Hstdout].
Defined.

Lemma ConstructError_not_consulted_witness :
  @ConstructError (with_detailed_capture example_runtime (fun _ => None))
    example_error_target (OJSFunction example_subclass)
    (OJSObject convertible_object) SKIP_FIRST true
  = @ConstructError example_runtime example_error_target
      (OJSFunction example_subclass) (OJSObject convertible_object) SKIP_FIRST
      true
  ∧ @ConstructError (with_ToString example_runtime (fun _ => None))
      example_error_target (OJSFunction example_subclass) Undefined SKIP_FIRST
      false
    = @ConstructError example_runtime example_error_target
        (OJSFunction example_subclass) Undefined SKIP_FIRST false.
Proof.
  destruct (ConstructError_not_consulted example_runtime example_error_target
              (OJSFunction example_subclass) (OJSObject convertible_object)
              SKIP_FIRST true (fun _ => None) (fun _ => None))
    as [Hdetailed _].
  destruct (ConstructError_not_consulted example_runtime example_error_target
              (OJSFunction example_subclass) Undefined SKIP_FIRST false
              (fun _ => None) (fun _ => None)) as [_ Hstring].
  split; [exact (Hdetailed eq_refl) | exact (Hstring eq_refl)].
Defined.
